(** * Static Web Apps CLI: the login command and the OAuth callback

    A shallow embedding of [src/cli/commands/login/login.ts] (module [Login])
    and of the custom-auth callback route, [getAuthClientPrincipal],
    [getOAuthToken], [getOAuthUser], [getRoles] and [httpTrigger] (module
    [AuthCallback]); the properties proved about each follow in [JSFacts],
    [LoginFacts] and [AuthCallbackFacts]. *)

From stdpp Require Import gmap strings list pretty.
From Stdlib Require Import ZArith Ascii.
From Stdlib Require PrimFloat.

Open Scope string_scope.
Open Scope list_scope.

(** * Definitions *)

(** ** JavaScript values and primitives used by the sources *)

Module JS.

(** A line feed, the ["\n"] of the sources. *)
Definition LF : string := String "010"%char EmptyString.

(** A value of TypeScript type [string | undefined]: [None] is [undefined]. *)
Definition optstr := option string.

(** Truthiness of a [string | undefined]: [undefined] and the empty string
    are falsy, every other string is truthy. *)
Definition truthy (v : optstr) : bool :=
  match v with
  | Some s => negb (String.eqb s "")
  | None => false
  end.

(** [`${v}`]: interpolation into a template literal. *)
Definition template (v : optstr) : string :=
  match v with
  | Some s => s
  | None => "undefined"
  end.

(** [s.startsWith(t)]. *)
Fixpoint startsWith (s t : string) {struct t} : bool :=
  match t with
  | EmptyString => true
  | String c t' =>
      match s with
      | EmptyString => false
      | String d s' => Ascii.eqb c d && startsWith s' t'
      end
  end.

(** [s.includes(t)]: [t] occurs in [s] as a contiguous run of characters. *)
Fixpoint includes (s t : string) : bool :=
  startsWith s t ||
  match s with
  | EmptyString => false
  | String _ s' => includes s' t
  end.

(** [lines.join(sep)]. *)
Definition join (sep : string) (lines : list string) : string :=
  String.concat sep lines.

(** What [includes] decides: some text before, the needle, some text after. *)
Definition substring_of (t s : string) : Prop :=
  exists pre post, s = pre +:+ t +:+ post.

(** A plain object with string values, as [Object.keys] enumerates it: own
    properties in enumeration order, each key once. *)
Record obj := Obj {
  obj_entries : list (string * string);
  obj_nodup : NoDup obj_entries.*1
}.

(** [Object.keys(o)]. *)
Definition Object_keys (o : obj) : list string := (obj_entries o).*1.

Fixpoint assoc (k : string) (l : list (string * string)) : option string :=
  match l with
  | [] => None
  | (k', v) :: l' => if String.eqb k k' then Some v else assoc k l'
  end.

(** [o[k]]: a property read; a missing property reads as [undefined]. *)
Definition obj_get (o : obj) (k : string) : optstr := assoc k (obj_entries o).

(** [o[k] = v] on the entries: an existing property keeps its place, a new
    one goes last. *)
Fixpoint set_entry (k v : string) (l : list (string * string)) : list (string * string) :=
  match l with
  | [] => [(k, v)]
  | (k', v') :: l' =>
      if String.eqb k k' then (k, v) :: l' else (k', v') :: set_entry k v l'
  end.

Lemma set_entry_keys k v l :
  forall x, x ∈ (set_entry k v l).*1 -> x = k \/ x ∈ l.*1.
Proof.
  induction l as [|[k' v'] l IH]; simpl; intros x Hx.
  - apply list_elem_of_singleton in Hx. by left.
  - destruct (String.eqb_spec k k') as [->|Hne]; simpl in Hx.
    + right. exact Hx.
    + apply elem_of_cons in Hx as [->|Hx].
      * right. left.
      * destruct (IH x Hx) as [->|Hin]; [by left|right; by right].
Qed.

Lemma set_entry_nodup k v l : NoDup l.*1 -> NoDup (set_entry k v l).*1.
Proof.
  induction l as [|[k' v'] l IH]; simpl; intros Hnd.
  - apply NoDup_singleton.
  - apply NoDup_cons in Hnd as [Hnotin Hnd].
    destruct (String.eqb_spec k k') as [->|Hne]; simpl.
    + by apply NoDup_cons.
    + apply NoDup_cons. split; [|by apply IH].
      intros Hin. apply set_entry_keys in Hin as [->|Hin]; [by apply Hne|by apply Hnotin].
Qed.

(** [{}]. *)
Definition empty_obj : obj := Obj [] (NoDup_nil_2 (A:=string)).

(** [o[k] = v]. *)
Definition obj_set (k v : string) (o : obj) : obj :=
  Obj (set_entry k v (obj_entries o)) (set_entry_nodup k v _ (obj_nodup o)).

(** [l.find(p)]: the first element that satisfies [p]. *)
Fixpoint find {A} (p : A -> bool) (l : list A) : option A :=
  match l with
  | [] => None
  | x :: l' => if p x then Some x else find p l'
  end.

(** The values an options object holds. *)
Inductive value :=
  | VUndefined
  | VBool (b : bool)
  | VNum (n : Z)
  | VStr (s : string).

Definition of_optstr (v : optstr) : value :=
  match v with
  | Some s => VStr s
  | None => VUndefined
  end.

(** How an awaited promise ends: with a value, or with an error of some
    message. *)
Inductive outcome (A : Type) :=
  | Resolved (a : A)
  | Rejected (message : string).
Arguments Resolved {A} a.
Arguments Rejected {A} message.

End JS.

(** ** [src/cli/commands/login/login.ts] *)

Module Login.
Import JS.

(** The file system: path to content; a path with no entry does not exist. *)
Abbreviation FileSystem := (gmap string string).

(** The options object ([SWACLIConfig]): property name to value. The
    commands update this one object in place and hand it on; no second
    reference to it is read after an update. *)
Abbreviation Options := (gmap string value).

(** A credential chain of the Azure identity library, by its handle. *)
Definition TokenCredential := nat.

(** A tenant and a subscription as the Azure SDK lists them; only the field
    the command reads. *)
Record TenantIdDescription := {
  tenant_tenantId : optstr
}.

Record Subscription := {
  subscription_subscriptionId : optstr
}.

(** One entry of the Azure CLI profile ([AzureLoginInfo]); only the fields
    the login command reads. *)
Record AzureLoginInfo := {
  info_id : optstr;
  info_tenantId : optstr;
  info_isDefault : option bool
}.

(** The Azure CLI profile ([AzureProfile]). *)
Record AzureProfile := {
  subscriptions : option (list AzureLoginInfo)
}.

(** What a command does to the outside world, in order: files written,
    lines logged (colours left out), and the calls to its collaborators.
    [UpdateGitIgnore] is the call to [updateGitIgnore] of [core/git.ts]; what
    that helper then writes is its own business and no part of the file
    system below. *)
Inductive Effect :=
  | WriteFile (path content : string)
  | LoggerLog (message : string)
  | LoggerSilly (message : string)
  | LoggerSillyObject (fields : list (string * optstr))
  | LoggerError (message : string)
  | UpdateGitIgnore (entry : string)
  | LogGitHubIssueMessageAndExit
  | Authenticate (tenantId clientId clientSecret : optstr) (useKeychain clearCredentials : value)
  | GetToken (credentialChain : TokenCredential) (scope : string)
  | ListTenants (credentialChain : TokenCredential)
  | ListSubscriptions (credentialChain : TokenCredential)
  | ChooseTenant (tenants : list TenantIdDescription) (initial : optstr)
  | ChooseSubscription (subscriptions : list Subscription) (initial : optstr).

(** [existsSync(p)]. *)
Definition existsSync (p : string) (fs : FileSystem) : bool :=
  bool_decide (is_Some (fs !! p)).

(** [fs.readFile(p, "utf8")] of a file that exists. *)
Definition readFile (p : string) (fs : FileSystem) : string :=
  default "" (fs !! p).

(** [fs.writeFile(p, content)]. *)
Definition writeFile (p content : string) (fs : FileSystem) : FileSystem :=
  <[p := content]> fs.

(** [b == true] for a [boolean | undefined]. *)
Definition loosely_true (b : option bool) : bool :=
  match b with
  | Some true => true
  | _ => false
  end.

(** [options[key]]. *)
Definition get (options : Options) (key : string) : value :=
  default VUndefined (options !! key).

(** [options[key]] of a property of type [string | undefined]. *)
Definition get_str (options : Options) (key : string) : optstr :=
  match options !! key with
  | Some (VStr s) => Some s
  | _ => None
  end.

(** A command: it reads and writes the file system, may reject, and leaves
    a trace of effects. *)
Definition Cmd (A : Type) : Type := FileSystem -> outcome A * FileSystem * list Effect.

Definition ret {A} (a : A) : Cmd A := fun fs => (Resolved a, fs, []).

Definition throw {A} (message : string) : Cmd A := fun fs => (Rejected message, fs, []).

Definition andThen {A B} (m : Cmd A) (k : A -> Cmd B) : Cmd B :=
  fun fs =>
    match m fs with
    | (Resolved a, fs', effects) =>
        match k a fs' with
        | (r, fs'', effects') => (r, fs'', effects ++ effects')
        end
    | (Rejected message, fs', effects) => (Rejected message, fs', effects)
    end.

Definition try_catch {A} (m : Cmd A) (handler : string -> Cmd A) : Cmd A :=
  fun fs =>
    match m fs with
    | (Resolved a, fs', effects) => (Resolved a, fs', effects)
    | (Rejected message, fs', effects) =>
        match handler message fs' with
        | (r, fs'', effects') => (r, fs'', effects ++ effects')
        end
    end.

(** One effect, then go on. *)
Definition emit (e : Effect) : Cmd unit := fun fs => (Resolved tt, fs, [e]).

(** A call to a collaborator: the call is recorded and its outcome awaited. *)
Definition request {A} (e : Effect) (answer : outcome A) : Cmd A :=
  fun fs => (answer, fs, [e]).

Notation "'let*' x ':=' m 'in' k" := (andThen m (fun x => k))
  (at level 10, x name, m at level 100, k at level 200).
Notation "m ';;' k" := (andThen m (fun _ => k))
  (at level 100, k at level 200, right associativity).

(** Ambient values: constants of [core/constants.ts] and of the Azure
    environment, the working directory, [path.join], the [dotenv] parser,
    the file helpers of [core/utils/file.ts], and what the collaborators of
    [core/account.ts] and [core/prompts.ts] answer. *)
Record Ambient := {
  ENV_FILENAME : string;
  AZURE_LOGIN_CONFIG : string;
  defaultScope : string;
  cwd : string;
  path_join : string -> string -> string;
  dotenv_parse : string -> obj;
  pathExists : string -> FileSystem -> bool;
  safeReadJson : string -> FileSystem -> option AzureProfile;
  authenticateWithAzureIdentity :
    optstr -> optstr -> optstr -> value -> value -> outcome TokenCredential;
  getToken : TokenCredential -> string -> outcome bool;
  listTenants : TokenCredential -> outcome (list TenantIdDescription);
  listSubscriptions : TokenCredential -> outcome (list Subscription);
  chooseTenant : list TenantIdDescription -> optstr -> outcome (option TenantIdDescription);
  chooseSubscription : list Subscription -> optstr -> outcome (option Subscription)
}.

Section Commands.

Variable amb : Ambient.

Local Abbreviation ENV_FILENAME := (ENV_FILENAME amb).
Local Abbreviation AZURE_LOGIN_CONFIG := (AZURE_LOGIN_CONFIG amb).
Local Abbreviation defaultScope := (defaultScope amb).
Local Abbreviation cwd := (cwd amb).
Local Abbreviation path_join := (path_join amb).
Local Abbreviation dotenv_parse := (dotenv_parse amb).
Local Abbreviation pathExists := (pathExists amb).
Local Abbreviation safeReadJson := (safeReadJson amb).

(** [`${key}=${value}`]. *)
Definition entry_of (key : string) (value : optstr) : string :=
  key +:+ "=" +:+ template value.

(** The guarded [newEnvFileLines.push(entry)] of each credential. *)
Definition push_new (envFileContent : string) (key : string) (value : optstr)
    (newEnvFileLines : list string) : list string :=
  let entry := entry_of key value in
  if truthy value && negb (includes envFileContent entry)
  then newEnvFileLines ++ [entry]
  else newEnvFileLines.

(** [storeProjectCredentialsInEnvFile] (lines 108 to 153). *)
Definition storeProjectCredentialsInEnvFile
    (subscriptionId tenantId clientId clientSecret : optstr)
    (fs : FileSystem) : FileSystem * list Effect :=
  let envFile := path_join cwd ENV_FILENAME in
  let envFileExists := existsSync envFile fs in
  let envFileContent := if envFileExists then readFile envFile fs else "" in
  let config := dotenv_parse envFileContent in
  let oldEnvFileLines :=
    map (fun key => key +:+ "=" +:+ template (obj_get config key)) (Object_keys config) in
  let newEnvFileLines := [] in
  let newEnvFileLines := push_new envFileContent "AZURE_SUBSCRIPTION_ID" subscriptionId newEnvFileLines in
  let newEnvFileLines := push_new envFileContent "AZURE_TENANT_ID" tenantId newEnvFileLines in
  let newEnvFileLines := push_new envFileContent "AZURE_CLIENT_ID" clientId newEnvFileLines in
  let newEnvFileLines := push_new envFileContent "AZURE_CLIENT_SECRET" clientSecret newEnvFileLines in
  if (0 <? List.length newEnvFileLines)%nat then
    let envFileContentWithProjectDetails := join LF (oldEnvFileLines ++ newEnvFileLines) in
    (writeFile envFile envFileContentWithProjectDetails fs,
     [ WriteFile envFile envFileContentWithProjectDetails;
       LoggerLog ("✔ Saved project credentials in " +:+ ENV_FILENAME +:+ " file.");
       UpdateGitIgnore ENV_FILENAME ])
  else (fs, []).

(** [tryGetAzTenantAndSubscription] (lines 155 to 176). *)
Definition tryGetAzTenantAndSubscription (options : Options) (fs : FileSystem)
    : Options * list Effect :=
  let doesAzureConfigExist := pathExists AZURE_LOGIN_CONFIG fs in
  if negb doesAzureConfigExist then (options, [])
  else
    let silly := LoggerSilly
      ("Found an existing Azure config file, getting Tenant and Subscription Id from "
         +:+ AZURE_LOGIN_CONFIG) in
    match safeReadJson AZURE_LOGIN_CONFIG fs with
    | Some azureProfile =>
        match subscriptions azureProfile with
        | Some allSubscriptions =>
            match find (fun subscription => loosely_true (info_isDefault subscription))
                       allSubscriptions with
            | Some defaultAzureInfo =>
                let options := <["tenantId" := of_optstr (info_tenantId defaultAzureInfo)]> options in
                let options := <["subscriptionId" := of_optstr (info_id defaultAzureInfo)]> options in
                (options, [silly])
            | None => (options, [silly])
            end
        | None => (options, [silly])
        end
    | None => (options, [silly])
    end.

(** The two functions above as commands.  The store step is taken on its
    normal path: the awaited [fs.writeFile] and [updateGitIgnore] are assumed
    to succeed, so that the step always resolves; a file system that fails
    at this point is not part of the model. *)
Definition storeCredentials (subscriptionId tenantId clientId clientSecret : optstr)
    : Cmd unit :=
  fun fs =>
    match storeProjectCredentialsInEnvFile subscriptionId tenantId clientId clientSecret fs with
    | (fs', effects) => (Resolved tt, fs', effects)
    end.

Definition tryGetDefaults (options : Options) : Cmd Options :=
  fun fs =>
    match tryGetAzTenantAndSubscription options fs with
    | (options', effects) => (Resolved options', fs, effects)
    end.

(** [authenticateWithAzureIdentity({ tenantId, clientId, clientSecret }, useKeychain, clear)]. *)
Definition authenticate (tenantId clientId clientSecret : optstr)
    (useKeychain clearCredentials : value) : Cmd TokenCredential :=
  request (Authenticate tenantId clientId clientSecret useKeychain clearCredentials)
    (authenticateWithAzureIdentity amb tenantId clientId clientSecret useKeychain
       clearCredentials).

(** [if (await credentialChain.getToken(defaultScope)) { logger.log(message) }]
    (lines 43 to 45 and 71 to 73). *)
Definition logWhenToken (credentialChain : TokenCredential) (message : string) : Cmd unit :=
  let* token := request (GetToken credentialChain defaultScope)
                  (getToken amb credentialChain defaultScope) in
  if (token : bool) then emit (LoggerLog message) else ret tt.

(** The tenant part of [setupProjectCredentials] (lines 54 to 75): the
    tenant given, or the only one listed, or the one chosen, with the
    credential chain to go on with. *)
Definition resolveTenant (options : Options) (credentialChain : TokenCredential)
    (tenantId clientId clientSecret : optstr) : Cmd (optstr * TokenCredential) :=
  if negb (truthy tenantId) then
    let* tenants := request (ListTenants credentialChain) (listTenants amb credentialChain) in
    match tenants with
    | [] =>
        throw ("No Azure tenants found in your account." +:+ LF +:+
               "  Please read https://docs.microsoft.com/azure/cost-management-billing/manage/troubleshoot-sign-in-issue")
    | [tenant] =>
        emit (LoggerSilly ("Found 1 tenant: " +:+ template (tenant_tenantId tenant)));;
        ret (tenant_tenantId tenant, credentialChain)
    | _ =>
        let* tenant := request (ChooseTenant tenants (get_str options "tenantId"))
                         (chooseTenant amb tenants (get_str options "tenantId")) in
        let tenantId := match tenant with Some t => tenant_tenantId t | None => None end in
        let* credentialChain :=
          authenticate tenantId clientId clientSecret (get options "useKeychain") (VBool true) in
        logWhenToken credentialChain
          ("✔ Successfully logged into Azure tenant: " +:+ template tenantId);;
        ret (tenantId, credentialChain)
    end
  else ret (tenantId, credentialChain).

(** The subscription part of [setupProjectCredentials] (lines 79 to 93). *)
Definition resolveSubscription (credentialChain : TokenCredential)
    (subscriptionId tenantId : optstr) : Cmd optstr :=
  if negb (truthy subscriptionId) then
    let* subscriptions :=
      request (ListSubscriptions credentialChain) (listSubscriptions amb credentialChain) in
    match subscriptions with
    | [] =>
        throw ("No valid subscription found for tenant " +:+ template tenantId +:+ "." +:+ LF +:+
               "  Please read https://docs.microsoft.com/azure/cost-management-billing/manage/no-subscriptions-found")
    | [subscription] =>
        emit (LoggerSilly ("Found 1 subscription: "
                             +:+ template (subscription_subscriptionId subscription)));;
        ret (subscription_subscriptionId subscription)
    | _ =>
        let* subscription :=
          request (ChooseSubscription subscriptions subscriptionId)
            (chooseSubscription amb subscriptions subscriptionId) in
        ret (match subscription with
             | Some s => subscription_subscriptionId s
             | None => None
             end)
    end
  else ret subscriptionId.

(** The result of [setupProjectCredentials] and of [login]. *)
Record LoginResult := {
  credentialChain : TokenCredential;
  subscriptionId : optstr
}.

(** [setupProjectCredentials] (lines 51 to 106). *)
Definition setupProjectCredentials (options : Options) (credentialChain : TokenCredential)
    : Cmd LoginResult :=
  let subscriptionId := get_str options "subscriptionId" in
  let tenantId := get_str options "tenantId" in
  let clientId := get_str options "clientId" in
  let clientSecret := get_str options "clientSecret" in
  let* tenant := resolveTenant options credentialChain tenantId clientId clientSecret in
  let tenantId := tenant.1 in
  let credentialChain := tenant.2 in
  emit (LoggerSilly ("Selected tenant: " +:+ template tenantId));;
  let* subscriptionId := resolveSubscription credentialChain subscriptionId tenantId in
  emit (LoggerSilly ("Selected subscription: " +:+ template subscriptionId));;
  emit (LoggerSilly "Project credentials:");;
  emit (LoggerSillyObject
          [ ("subscriptionId", subscriptionId); ("tenantId", tenantId);
            ("clientId", clientId); ("clientSecret", clientSecret) ]);;
  storeCredentials subscriptionId tenantId clientId clientSecret;;
  ret {| credentialChain := credentialChain; subscriptionId := subscriptionId |}.

(** [login] (lines 32 to 49). *)
Definition login (options : Options) : Cmd LoginResult :=
  emit (LoggerLog "Checking Azure session...");;
  let tenantId := get_str options "tenantId" in
  let clientId := get_str options "clientId" in
  let clientSecret := get_str options "clientSecret" in
  let* credentialChain :=
    authenticate tenantId clientId clientSecret
      (get options "useKeychain") (get options "clearCredentials") in
  logWhenToken credentialChain "✔ Successfully logged into Azure!";;
  let* options := tryGetDefaults options in
  setupProjectCredentials options credentialChain.

(** [loginCommand] (lines 16 to 30). The credential chain of a login that
    resolved is an object, hence truthy: the test of line 20 comes down to
    the subscription. *)
Definition loginCommand (options : Options) : Cmd unit :=
  try_catch
    (let* result := login options in
     if truthy (subscriptionId result)
     then emit (LoggerLog "✔ Successfully setup project!")
     else
       emit (LoggerLog "✘ Failed to setup project!");;
       emit LogGitHubIssueMessageAndExit)
    (fun message =>
       emit (LoggerError ("Failed to setup project: " +:+ message));;
       emit LogGitHubIssueMessageAndExit).

(** *** What the env file is expected to hold *)

(** The env file of the project. *)
Definition envFilePath : string := path_join cwd ENV_FILENAME.

(** The content the env file has before the call; empty when it does not exist. *)
Definition previous_content (fs : FileSystem) : string :=
  if existsSync envFilePath fs then readFile envFilePath fs else "".

(** The four credentials with the keys they are stored under, in the order
    the command considers them. *)
Definition credentials (subscriptionId tenantId clientId clientSecret : optstr)
    : list (string * optstr) :=
  [ ("AZURE_SUBSCRIPTION_ID", subscriptionId);
    ("AZURE_TENANT_ID", tenantId);
    ("AZURE_CLIENT_ID", clientId);
    ("AZURE_CLIENT_SECRET", clientSecret) ].

(** The entries of a parsed object, each as a [KEY=value] line. *)
Definition serialized (o : obj) : list string :=
  map (fun kv => kv.1 +:+ "=" +:+ kv.2) (obj_entries o).

(** One line for each credential whose value is defined and whose
    [KEY=value] string is not yet a substring of the content. *)
Definition lines_of_defined (content : string) (creds : list (string * optstr))
    : list string :=
  omap (fun kv =>
          match kv.2 with
          | Some v =>
              if includes content (kv.1 +:+ "=" +:+ v) then None
              else Some (kv.1 +:+ "=" +:+ v)
          | None => None
          end) creds.

(** The same, for the credentials whose value is moreover not the empty string. *)
Definition lines_of_nonempty (content : string) (creds : list (string * optstr))
    : list string :=
  omap (fun kv =>
          match kv.2 with
          | Some v =>
              if String.eqb v "" then None
              else if includes content (kv.1 +:+ "=" +:+ v) then None
              else Some (kv.1 +:+ "=" +:+ v)
          | None => None
          end) creds.

(** The effects that are calls to the Azure account or prompts to the user. *)
Definition asks (e : Effect) : bool :=
  match e with
  | Authenticate _ _ _ _ _ | GetToken _ _ | ListTenants _ | ListSubscriptions _
  | ChooseTenant _ _ | ChooseSubscription _ _ => true
  | _ => false
  end.

End Commands.

(** *** Sample values *)

Module Sample.

Fixpoint lines_of (s current : string) : list string :=
  match s with
  | EmptyString => [current]
  | String c s' =>
      if Ascii.eqb c "010" then current :: lines_of s' ""
      else lines_of s' (current +:+ String c "")
  end.

Fixpoint cut_at_equals (s key : string) : option (string * string) :=
  match s with
  | EmptyString => None
  | String c s' =>
      if Ascii.eqb c "=" then Some (key, s')
      else cut_at_equals s' (key +:+ String c "")
  end.

(** A parser for plain env files: one [KEY=value] per line, lines that start
    with [#] and lines without [=] skipped, a repeated key keeping its first
    place and taking the last value. *)
Definition parse_env (s : string) : obj :=
  foldl (fun o line =>
           match line with
           | String "#" _ => o
           | _ => match cut_at_equals line "" with
                  | Some (k, v) => obj_set k v o
                  | None => o
                  end
           end) empty_obj (lines_of s "").

Definition cliProfile : AzureProfile :=
  {| subscriptions := Some
       [ {| info_id := Some "sub-1"; info_tenantId := Some "ten-1"; info_isDefault := Some false |};
         {| info_id := Some "sub-2"; info_tenantId := Some "ten-2"; info_isDefault := Some true |};
         {| info_id := Some "sub-3"; info_tenantId := Some "ten-3"; info_isDefault := Some true |} ] |}.

(** A world where the account behind credential chain 0 has no tenant and
    no subscription, the one behind chain 1 has one of each, and any other
    has two; the client id picks the chain, and prompts take the first
    choice. *)
Definition amb : Ambient :=
  {| ENV_FILENAME := ".env";
     AZURE_LOGIN_CONFIG := "/home/dev/.azure/azureProfile.json";
     defaultScope := "https://management.azure.com/.default";
     cwd := "/project";
     path_join := fun a b => a +:+ "/" +:+ b;
     dotenv_parse := parse_env;
     pathExists := existsSync;
     safeReadJson := fun p fs =>
       match fs !! p with
       | None => None
       | Some content =>
           if String.eqb content "{}" then Some {| subscriptions := None |}
           else Some cliProfile
       end;
     authenticateWithAzureIdentity := fun tenantId clientId clientSecret useKeychain clear =>
       if bool_decide (clientId = Some "app-0") then Resolved 0%nat
       else if bool_decide (clientId = Some "app-1") then Resolved 1%nat
       else if bool_decide (clientId = Some "app-x") then Rejected "AADSTS700016"
       else Resolved 2%nat;
     getToken := fun chain scope => Resolved true;
     listTenants := fun chain =>
       match chain with
       | 0%nat => Resolved []
       | 1%nat => Resolved [ {| tenant_tenantId := Some "ten-1" |} ]
       | _ => Resolved [ {| tenant_tenantId := Some "ten-1" |};
                         {| tenant_tenantId := Some "ten-2" |} ]
       end;
     listSubscriptions := fun chain =>
       match chain with
       | 0%nat => Resolved []
       | 1%nat => Resolved [ {| subscription_subscriptionId := Some "sub-1" |} ]
       | _ => Resolved [ {| subscription_subscriptionId := Some "sub-1" |};
                         {| subscription_subscriptionId := Some "sub-2" |} ]
       end;
     chooseTenant := fun tenants initial => Resolved (head tenants);
     chooseSubscription := fun subscriptions initial => Resolved (head subscriptions) |}.

(** A project whose env file already names the subscription and the tenant. *)
Definition project : FileSystem :=
  {[ "/project/.env" :=
       "FOO=bar" +:+ LF +:+ "# local settings" +:+ LF +:+
       "AZURE_SUBSCRIPTION_ID=sub-1" +:+ LF +:+ "AZURE_TENANT_ID=ten-1" ]}.

(** A machine where the Azure CLI has logged in. *)
Definition machine : FileSystem :=
  {[ "/home/dev/.azure/azureProfile.json" := "three subscriptions" ]}.

(** A machine where the Azure CLI has a profile without subscriptions. *)
Definition blankMachine : FileSystem :=
  {[ "/home/dev/.azure/azureProfile.json" := "{}" ]}.

Definition callerOptions : Options :=
  <["tenantId" := VStr "caller-tenant"]> (<["appLocation" := VStr "./app"]> ∅).

(** Options that name the tenant and the subscription. *)
Definition fullOptions : Options :=
  <["tenantId" := VStr "ten-9"]> (<["subscriptionId" := VStr "sub-9"]> ∅).

(** Options that name the subscription only. *)
Definition subscriptionOnly : Options :=
  <["subscriptionId" := VStr "sub-9"]> ∅.

(** Options that name the tenant only. *)
Definition tenantOnly : Options :=
  <["tenantId" := VStr "ten-9"]> ∅.

(** Options with a client id the identity platform refuses. *)
Definition refusedClient : Options :=
  <["clientId" := VStr "app-x"]> ∅.

(** Options with the client id of the account that has no tenant. *)
Definition emptyAccount : Options :=
  <["clientId" := VStr "app-0"]> ∅.

(** Options that name everything, the client secret included. *)
Definition withSecret : Options :=
  <["tenantId" := VStr "ten-9"]> (<["subscriptionId" := VStr "sub-9"]>
    (<["clientId" := VStr "app-5"]> (<["clientSecret" := VStr "s3cret"]> ∅))).

(** The same world, except that the user leaves every prompt without a
    choice. *)
Definition noChoice : Ambient :=
  {| ENV_FILENAME := ENV_FILENAME amb;
     AZURE_LOGIN_CONFIG := AZURE_LOGIN_CONFIG amb;
     defaultScope := defaultScope amb;
     cwd := cwd amb;
     path_join := path_join amb;
     dotenv_parse := dotenv_parse amb;
     pathExists := pathExists amb;
     safeReadJson := safeReadJson amb;
     authenticateWithAzureIdentity := authenticateWithAzureIdentity amb;
     getToken := getToken amb;
     listTenants := listTenants amb;
     listSubscriptions := listSubscriptions amb;
     chooseTenant := fun tenants initial => Resolved None;
     chooseSubscription := fun subscriptions initial => Resolved None |}.

(** The same world, except that authenticating for tenant [ten-1] gives
    credential chain 1, whose account has one subscription. *)
Definition perTenant : Ambient :=
  {| ENV_FILENAME := ENV_FILENAME amb;
     AZURE_LOGIN_CONFIG := AZURE_LOGIN_CONFIG amb;
     defaultScope := defaultScope amb;
     cwd := cwd amb;
     path_join := path_join amb;
     dotenv_parse := dotenv_parse amb;
     pathExists := pathExists amb;
     safeReadJson := safeReadJson amb;
     authenticateWithAzureIdentity := fun tenantId clientId clientSecret useKeychain clear =>
       if bool_decide (tenantId = Some "ten-1") then Resolved 1%nat else Resolved 2%nat;
     getToken := getToken amb;
     listTenants := listTenants amb;
     listSubscriptions := listSubscriptions amb;
     chooseTenant := chooseTenant amb;
     chooseSubscription := chooseSubscription amb |}.

End Sample.

End Login.


(** ** The custom-auth callback route

    The TypeScript that follows the compiler options in [tsconfig.json]:
    [getAuthClientPrincipal] (l.59-180), [getOAuthToken] (l.182-253),
    [getOAuthUser] (l.255-295), [getRoles] (l.297-343) and [httpTrigger]
    (l.345-439).  What it imports and is not among the sources (the cookie
    helpers, the constants, the configuration check, the Node and JavaScript
    built-ins, the network) is gathered in the record [Environment]. *)

Module AuthCallback.
Import JS.

(** *** Values of type [any] *)

#[local] Set Warnings "-register-all".

(** What [JSON.parse], [querystring.parse] and [jwtDecode] return and what a
    property read gives: a JSON value, or [undefined].  An object lists its
    own properties in the order [Object.keys] enumerates them; a number is
    an IEEE double. *)
Inductive any :=
  | JUndefined
  | JNull
  | JBool (b : bool)
  | JNum (x : PrimFloat.float)
  | JStr (s : string)
  | JArr (elements : list any)
  | JObj (properties : list (string * any)).

Definition of_optstr (v : optstr) : any :=
  match v with
  | Some s => JStr s
  | None => JUndefined
  end.

(** A [string | null], as [searchParams.get] returns it. *)
Definition of_nullable (v : option string) : any :=
  match v with
  | Some s => JStr s
  | None => JNull
  end.

(** Truthiness: [undefined], [null], [false], [0], [NaN] and the empty
    string are falsy. *)
Definition truthiness (v : any) : bool :=
  match v with
  | JUndefined | JNull => false
  | JBool b => b
  | JNum x => negb (PrimFloat.eqb x PrimFloat.zero) && PrimFloat.eqb x x
  | JStr s => negb (String.eqb s "")
  | JArr _ | JObj _ => true
  end.

(** [a || b]. *)
Definition or_else (a b : any) : any := if truthiness a then a else b.

(** [a || b] on values of type [string | undefined]. *)
Definition or_else_str (a b : optstr) : optstr := if truthy a then a else b.

(** A [string | undefined] that is truthy, as the string it is. *)
Definition whenTruthy (v : optstr) : option string :=
  match v with
  | Some s => if String.eqb s "" then None else Some s
  | None => None
  end.

(** The first entry under a key. *)
Fixpoint entry {A} (k : string) (l : list (string * A)) : option A :=
  match l with
  | [] => None
  | (k', v) :: l' => if String.eqb k k' then Some v else entry k l'
  end.

(** The elements of an array or the characters of a string under their
    indices ["0"], ["1"], ... *)
Fixpoint indexed {A} (i : nat) (l : list A) : list (string * A) :=
  match l with
  | [] => []
  | x :: l' => (pretty i, x) :: indexed (S i) l'
  end.

Fixpoint characters (s : string) : list any :=
  match s with
  | EmptyString => []
  | String c s' => JStr (String c EmptyString) :: characters s'
  end.

(** The own enumerable properties of a value; there are none to ask for on
    [undefined] and [null], where a property read is a [TypeError]. *)
Definition ownProperties (v : any) : option (list (string * any)) :=
  match v with
  | JUndefined | JNull => None
  | JBool _ | JNum _ => Some []
  | JStr s => Some (indexed 0 (characters s))
  | JArr l => Some (indexed 0 l)
  | JObj l => Some l
  end.

(** [properties[k]], [undefined] when there is no such property.  The names
    the route reads ([login], [email], [data], [roles], ...) are not members
    inherited from a prototype, so own properties decide every read. *)
Definition property (k : string) (properties : list (string * any)) : any :=
  match entry k properties with
  | Some v => v
  | None => JUndefined
  end.

(** [v?.[k]]. *)
Definition optional_read (v : any) (k : string) : any :=
  match ownProperties v with
  | Some properties => property k properties
  | None => JUndefined
  end.

(** What [...v] spreads into a call: the elements of an array, the
    characters of a string; any other value is not iterable. *)
Definition iterate (v : any) : option (list any) :=
  match v with
  | JArr l => Some l
  | JStr s => Some (characters s)
  | _ => None
  end.

(** [s.split(sep)] for a separator of one character. *)
Fixpoint String_split (sep : ascii) (s : string) : list string :=
  match s with
  | EmptyString => [""]
  | String c s' =>
      if Ascii.eqb c sep then "" :: String_split sep s'
      else match String_split sep s' with
           | head :: tail => String c head :: tail
           | [] => [String c EmptyString]
           end
  end.

(** *** Errors, completions and events *)

(** What is thrown, or what a promise is rejected with. *)
Inductive error :=
  | TypeError
  | SyntaxError
  | InvalidTokenError
  | RequestError (err : string).

(** How an awaited computation ends: it returns, it throws (a rejected
    promise, once awaited, is a throw), or its promise never settles. *)
Inductive completion (A : Type) :=
  | Returns (a : A)
  | Throws (e : error)
  | Pending.
Arguments Returns {A} a.
Arguments Throws {A} e.
Arguments Pending {A}.

(** [http] or [https], the module a request goes through. *)
Inductive protocol := HTTP | HTTPS.

(** A header value: a string, or a number such as a content length. *)
Inductive header :=
  | HStr (s : string)
  | HNum (n : nat).

(** The options object handed to [request]. *)
Record RequestOptions := {
  host : optstr;
  port : optstr;
  path : optstr;
  method : string;
  headers : list (string * header)
}.

(** What the outside world sees of a run: the requests sent, with the body
    written to them if any, and the lines written by [console.error]. *)
Inductive Event :=
  | Request (via : protocol) (options : RequestOptions) (data : optstr)
  | ConsoleError (message : string) (e : error).

(** What comes back for a request: the response body once the response has
    ended, the error of the request's [error] event, or neither of them. *)
Inductive Reply :=
  | End (responseBody : string)
  | Error (err : string)
  | Silence.

(** A computation: how it ends, and the events of the run in order. *)
Definition Async (A : Type) : Type := completion A * list Event.

Definition ret {A} (a : A) : Async A := (Returns a, []).

Definition throw {A} (e : error) : Async A := (Throws e, []).

Definition await {A B} (m : Async A) (k : A -> Async B) : Async B :=
  match m with
  | (Returns a, events) => ((k a).1, events ++ (k a).2)
  | (Throws e, events) => (Throws e, events)
  | (Pending, events) => (Pending, events)
  end.

(** [try { m } catch (e) { handler e }]. *)
Definition try_catch {A} (m : Async A) (handler : error -> Async A) : Async A :=
  match m with
  | (Throws e, events) => ((handler e).1, events ++ (handler e).2)
  | settled => settled
  end.

Definition console_error (message : string) (e : error) : Async unit :=
  (Returns tt, [ConsoleError message e]).

(** A read that throws on [undefined] and [null]: [v[k]]. *)
Definition read (v : any) (k : string) : Async any :=
  match ownProperties v with
  | Some properties => ret (property k properties)
  | None => throw TypeError
  end.

Notation "'let*' x ':=' m 'in' k" := (await m (fun x => k))
  (at level 10, x name, m at level 100, k at level 200).
Notation "m ';;' k" := (await m (fun _ => k))
  (at level 100, k at level 200, right associativity).

(** *** Data *)

(** An endpoint of the token and user mappings of [core/constants.js]. *)
Record Endpoint := {
  endpoint_host : string;
  endpoint_path : string
}.

(** What [decodeAuthContextCookie] reads from the auth-context cookie. *)
Record AuthContext := {
  authNonce : optstr;
  postLoginRedirectUri : optstr
}.

(** The [auth] section of the configuration file, [customAuth]. *)
Record SWAConfigFileAuth := {
  rolesSource : optstr;
  identityProviders : any
}.

(** The fields of the provider configuration, as [checkCustomAuthConfigFields]
    returns them: a [Record<string, string>]. *)
Abbreviation AuthConfigs := (gmap string string).

Record Claim := {
  typ : string;
  val : any
}.

Record ClientPrincipal := {
  identityProvider : string;
  userDetails : any;
  claims : list Claim;
  userRoles : list any
}.

(** The argument of [addCookieToSet]. *)
Record Cookie := {
  cookie_name : string;
  cookie_value : string;
  cookie_domain : optstr;
  cookie_path : string;
  cookie_secure : bool;
  cookie_httpOnly : bool;
  cookie_expires : string
}.

(** The class [CookiesManager] is in [core/utils/cookie.js]; a manager is
    kept as what it was constructed with and the calls made on it since,
    and [getCookies()] as the manager at the time of the call. *)
Inductive CookieCall :=
  | AddCookieToDelete (name : string)
  | AddCookieToSet (cookie : Cookie).

Record CookiesManager := {
  requestCookies : optstr;
  calls : list CookieCall
}.

Definition addCookieToDelete (name : string) (m : CookiesManager) : CookiesManager :=
  {| requestCookies := requestCookies m; calls := calls m ++ [AddCookieToDelete name] |}.

Definition addCookieToSet (cookie : Cookie) (m : CookiesManager) : CookiesManager :=
  {| requestCookies := requestCookies m; calls := calls m ++ [AddCookieToSet cookie] |}.

(** The options handed to [response] of [core/utils/net.js], which stand for
    the response it builds; [cookies] is [None] where none are handed. *)
Record Response := {
  status : nat;
  response_headers : list (string * header);
  body : string;
  cookies : option CookiesManager
}.

Definition response (status : nat) (headers : list (string * header)) (body : string)
    (cookies : option CookiesManager) : Response :=
  {| status := status; response_headers := headers; body := body; cookies := cookies |}.

(** The function context: [context.bindingData?.provider] and [context.res]. *)
Record Context := {
  provider : optstr;
  res : option Response
}.

(** [context.res = r]. *)
Definition set_res (r : Response) (context : Context) : Context :=
  {| provider := provider context; res := Some r |}.

(** The incoming request: [request.url], [request.headers.cookie] and
    [request.headers.host]. *)
Record IncomingMessage := {
  url : optstr;
  headers_cookie : optstr;
  headers_host : optstr
}.

(** A parsed [URL]. *)
Record URL := {
  url_protocol : string;
  url_hostname : string;
  url_port : string;
  searchParams : list (string * string)
}.

(** [url.searchParams.get(name)]: the first value under the name, or [null]. *)
Definition searchParams_get (u : URL) (name : string) : option string :=
  entry name (searchParams u).

(** What [parseUrl] of [core/utils/net.js] returns, each part as a template
    literal renders it. *)
Record ParsedUrl := {
  parsed_protocol : optstr;
  parsed_hostname : optstr;
  parsed_port : optstr
}.

(** *** What the route imports *)

(** The constants, helpers and built-ins the route uses and whose code is
    not among the sources, and the network.  The helpers of the repository
    are taken to return a value and to do nothing else; of the built-ins,
    [JSON.parse], [new URL] and [jwtDecode] may throw. *)
Record Environment := {
  (** [core/constants.js] *)
  SUPPORTED_CUSTOM_AUTH_PROVIDERS : list string;
  CUSTOM_AUTH_ISS_MAPPING : list (string * string);
  CUSTOM_AUTH_TOKEN_ENDPOINT_MAPPING : list (string * Endpoint);
  CUSTOM_AUTH_USER_ENDPOINT_MAPPING : list (string * Endpoint);
  SWA_CLI_API_URI : optstr;
  SWA_CLI_APP_PROTOCOL : string;
  (** [config.js]: [DEFAULT_CONFIG.host] and [DEFAULT_CONFIG.port] *)
  DEFAULT_CONFIG_host : optstr;
  DEFAULT_CONFIG_port : optstr;
  (** [core/utils/cookie.js] *)
  validateAuthContextCookie : string -> bool;
  decodeAuthContextCookie : string -> option AuthContext;
  (** [core/utils/auth.js] *)
  encryptAndSign : string -> optstr;
  hashStateGuid : string -> string;
  isNonceExpired : string -> bool;
  (** [auth-login-provider-custom.js]; the check is handed the context and
      may write a response to it *)
  checkCustomAuthConfigFields :
    Context -> string -> option SWAConfigFileAuth -> option AuthConfigs * Context;
  normalizeAuthProvider : optstr -> string;
  (** [core/utils/net.js] *)
  parseUrl : optstr -> ParsedUrl;
  (** [jwt-decode]; [None] where it throws *)
  jwtDecode : any -> option any;
  (** built-ins; [JSON_parse] and [new_URL] are [None] where they throw *)
  JSON_parse : string -> option any;
  JSON_stringify : ClientPrincipal -> string;
  querystring_parse : string -> any;
  querystring_stringify : list (string * any) -> string;
  Buffer_byteLength : string -> nat;
  Buffer_base64 : string -> string;
  btoa : string -> string;
  String_replace : string -> string -> string -> string;
  Number_toString : PrimFloat.float -> string;
  new_URL : string -> optstr -> option URL;
  Date_now : Z;
  toUTCString : Z -> string;
  (** the network: what comes back for a request *)
  network : protocol -> RequestOptions -> optstr -> Reply
}.

Section Route.

Variable env : Environment.

Local Abbreviation SUPPORTED_CUSTOM_AUTH_PROVIDERS := (SUPPORTED_CUSTOM_AUTH_PROVIDERS env).
Local Abbreviation CUSTOM_AUTH_ISS_MAPPING := (CUSTOM_AUTH_ISS_MAPPING env).
Local Abbreviation CUSTOM_AUTH_TOKEN_ENDPOINT_MAPPING := (CUSTOM_AUTH_TOKEN_ENDPOINT_MAPPING env).
Local Abbreviation CUSTOM_AUTH_USER_ENDPOINT_MAPPING := (CUSTOM_AUTH_USER_ENDPOINT_MAPPING env).
Local Abbreviation SWA_CLI_API_URI := (SWA_CLI_API_URI env).
Local Abbreviation SWA_CLI_APP_PROTOCOL := (SWA_CLI_APP_PROTOCOL env).
Local Abbreviation DEFAULT_CONFIG_host := (DEFAULT_CONFIG_host env).
Local Abbreviation DEFAULT_CONFIG_port := (DEFAULT_CONFIG_port env).
Local Abbreviation validateAuthContextCookie := (validateAuthContextCookie env).
Local Abbreviation decodeAuthContextCookie := (decodeAuthContextCookie env).
Local Abbreviation encryptAndSign := (encryptAndSign env).
Local Abbreviation hashStateGuid := (hashStateGuid env).
Local Abbreviation isNonceExpired := (isNonceExpired env).
Local Abbreviation checkCustomAuthConfigFields := (checkCustomAuthConfigFields env).
Local Abbreviation normalizeAuthProvider := (normalizeAuthProvider env).
Local Abbreviation parseUrl := (parseUrl env).
Local Abbreviation jwtDecode := (jwtDecode env).
Local Abbreviation JSON_parse := (JSON_parse env).
Local Abbreviation JSON_stringify := (JSON_stringify env).
Local Abbreviation querystring_parse := (querystring_parse env).
Local Abbreviation querystring_stringify := (querystring_stringify env).
Local Abbreviation Buffer_byteLength := (Buffer_byteLength env).
Local Abbreviation Buffer_base64 := (Buffer_base64 env).
Local Abbreviation btoa := (btoa env).
Local Abbreviation String_replace := (String_replace env).
Local Abbreviation Number_toString := (Number_toString env).
Local Abbreviation new_URL := (new_URL env).
Local Abbreviation Date_now := (Date_now env).
Local Abbreviation toUTCString := (toUTCString env).
Local Abbreviation network := (network env).

(** [`${v}`] for a value of type [any]. *)
Fixpoint toString (v : any) : string :=
  match v with
  | JUndefined => "undefined"
  | JNull => "null"
  | JBool true => "true"
  | JBool false => "false"
  | JNum x => Number_toString x
  | JStr s => s
  | JArr l =>
      join ","
        (map (fun element =>
                match element with
                | JUndefined | JNull => ""
                | _ => toString element
                end) l)
  | JObj _ => "[object Object]"
  end.

(** A request sent and awaited, as the promises of the route wrap it: the
    promise resolves with the body when the response ends, and rejects with
    the error of the request. *)
Definition request (via : protocol) (options : RequestOptions) (data : optstr)
    : Async string :=
  (match network via options data with
   | End responseBody => Returns responseBody
   | Error err => Throws (RequestError err)
   | Silence => Pending
   end,
   [Request via options data]).

(** [JSON.parse(s)]. *)
Definition parse (s : string) : Async any :=
  match JSON_parse s with
  | Some v => ret v
  | None => throw SyntaxError
  end.

(** **** [getOAuthToken], l.182-253 *)

(** The function returns [null] ([None]) for a provider without a token
    endpoint, and otherwise the promise of the response body.  Its callers
    await the call inside a [try], where a throw of the call and a rejection
    of the promise are the same. *)
Definition getOAuthToken (authProvider : string) (codeValue : option string)
    (authConfigs : AuthConfigs) : Async (option string) :=
  let redirectUri :=
    SWA_CLI_APP_PROTOCOL +:+ "://" +:+ template DEFAULT_CONFIG_host +:+ ":"
      +:+ template DEFAULT_CONFIG_port in
  if negb (bool_decide (authProvider ∈ CUSTOM_AUTH_TOKEN_ENDPOINT_MAPPING.*1)) then ret None
  else
    let* tenantId :=
      (if String.eqb authProvider "aad" then
         match authConfigs !! "openIdIssuer" with
         | Some openIdIssuer => ret (String_split "/" openIdIssuer !! 3%nat)
         | None => throw TypeError
         end
       else ret None) in
    let queryString :=
      [ ("code", of_nullable codeValue);
        ("grant_type", JStr "authorization_code");
        ("redirect_uri",
         JStr (redirectUri +:+ "/.auth/login/" +:+ authProvider +:+ "/callback")) ] in
    let queryString :=
      if negb (String.eqb authProvider "twitter") then
        queryString ++
        [ ("client_id",
           of_optstr (or_else_str (authConfigs !! "clientIdSettingName")
                                  (authConfigs !! "appIdSettingName")));
          ("client_secret",
           of_optstr (or_else_str (authConfigs !! "clientSecretSettingName")
                                  (authConfigs !! "appSecretSettingName"))) ]
      else queryString ++ [ ("code_verifier", JStr "challenge") ] in
    let data := querystring_stringify queryString in
    let tokenPath := endpoint_path <$> entry authProvider CUSTOM_AUTH_TOKEN_ENDPOINT_MAPPING in
    let* tokenPath :=
      (match String.eqb authProvider "aad", tenantId with
       | true, Some tenantId =>
           match tokenPath with
           | Some tokenPath => ret (Some (String_replace tokenPath "tenantId" tenantId))
           | None => throw TypeError
           end
       | _, _ => ret tokenPath
       end) in
    let headers :=
      [ ("Content-Type", HStr "application/x-www-form-urlencoded");
        ("Content-Length", HNum (Buffer_byteLength data)) ] in
    let headers :=
      if String.eqb authProvider "twitter" then
        let keySecretString :=
          template (authConfigs !! "consumerKeySettingName") +:+ ":"
            +:+ template (authConfigs !! "consumerSecretSettingName") in
        let encryptedCredentials := Buffer_base64 keySecretString in
        headers ++ [ ("Authorization", HStr ("Basic " +:+ encryptedCredentials)) ]
      else headers in
    let options :=
      {| host := endpoint_host <$> entry authProvider CUSTOM_AUTH_TOKEN_ENDPOINT_MAPPING;
         port := None;
         path := tokenPath;
         method := "POST";
         headers := headers |} in
    let* responseBody := request HTTPS options (Some data) in
    ret (Some responseBody).

(** **** [getOAuthUser], l.255-295 *)

(** For Facebook the token is decoded on the spot and nothing is sent. *)
Definition getOAuthUser (authProvider : string) (accessToken : any) : Async any :=
  if String.eqb authProvider "facebook" then
    match jwtDecode accessToken with
    | Some payload => ret payload
    | None => throw InvalidTokenError
    end
  else
    let options :=
      {| host := endpoint_host <$> entry authProvider CUSTOM_AUTH_USER_ENDPOINT_MAPPING;
         port := None;
         path := endpoint_path <$> entry authProvider CUSTOM_AUTH_USER_ENDPOINT_MAPPING;
         method := "GET";
         headers :=
           [ ("Authorization", HStr ("Bearer " +:+ toString accessToken));
             ("User-Agent", HStr "Azure Static Web Apps Emulator") ] |} in
    let* responseBody := request HTTPS options None in
    parse responseBody.

(** **** [getRoles], l.297-343 *)

Definition getRoles (clientPrincipal : ClientPrincipal) (rolesSource : string) : Async any :=
  let cliApiUri := SWA_CLI_API_URI in
  let parsed := parseUrl cliApiUri in
  let target :=
    if bool_decide (parsed_hostname parsed = Some "localhost") then
      Some (template (parsed_protocol parsed) +:+ "//127.0.0.1:"
              +:+ template (parsed_port parsed))
    else cliApiUri in
  match new_URL (template target) None with
  | None => throw TypeError
  | Some targetUrl =>
      let data := JSON_stringify clientPrincipal in
      let options :=
        {| host := Some (url_hostname targetUrl);
           port := Some (url_port targetUrl);
           path := Some rolesSource;
           method := "POST";
           headers :=
             [ ("Content-Type", HStr "application/json");
               ("Content-Length", HNum (Buffer_byteLength data)) ] |} in
      let protocolModule :=
        if String.eqb (url_protocol targetUrl) "https:" then HTTPS else HTTP in
      let* responseBody := request protocolModule options (Some data) in
      parse responseBody
  end.

(** **** [getAuthClientPrincipal], l.59-180 *)

(** The token read from the answer of the token endpoint, l.64-76: the
    answer is parsed as JSON or, failing that, as a query string, and the
    token is its [access_token], or its [id_token] for Facebook.  An answer
    that is [null] parses to [null], on which the read throws. *)
Definition authTokenOf (authProvider : string) (authTokenResponse : option string)
    : Async any :=
  let authTokenParsed :=
    match authTokenResponse with
    | Some authTokenResponse =>
        match JSON_parse authTokenResponse with
        | Some parsed => parsed
        | None => querystring_parse authTokenResponse
        end
    | None => JNull
    end in
  if negb (String.eqb authProvider "facebook") then read authTokenParsed "access_token"
  else read authTokenParsed "id_token".

(** The principal built from the user, l.89-174.  The first read,
    [user["login"]], throws when the user is [null]; nothing after it can. *)
Definition clientPrincipalOf (authProvider : string) (authConfigs : AuthConfigs)
    (user : any) : Async ClientPrincipal :=
  match ownProperties user with
  | None => throw TypeError
  | Some properties =>
      let field k := property k properties in
      let data k := optional_read (field "data") k in
      let userDetails := or_else (field "login") (or_else (field "email") (data "username")) in
      let name := or_else (field "name") (data "name") in
      let givenName := field "given_name" in
      let familyName := field "family_name" in
      let picture := field "picture" in
      let userId := or_else (field "id") (data "id") in
      let verifiedEmail := field "verified_email" in
      let claims :=
        [ {| typ := "iss"; val := of_optstr (entry authProvider CUSTOM_AUTH_ISS_MAPPING) |};
          {| typ := "azp";
             val := of_optstr (or_else_str (authConfigs !! "clientIdSettingName")
                                           (authConfigs !! "appIdSettingName")) |};
          {| typ := "aud";
             val := of_optstr (or_else_str (authConfigs !! "clientIdSettingName")
                                           (authConfigs !! "appIdSettingName")) |} ] in
      let claims :=
        if truthiness userDetails then
          claims ++
          [ {| typ := "http://schemas.xmlsoap.org/ws/2005/05/identity/claims/emailaddress";
               val := userDetails |} ]
        else claims in
      let claims :=
        if truthiness name then claims ++ [ {| typ := "name"; val := name |} ] else claims in
      let claims :=
        if truthiness picture then claims ++ [ {| typ := "picture"; val := picture |} ]
        else claims in
      let claims :=
        if truthiness givenName then
          claims ++
          [ {| typ := "http://schemas.xmlsoap.org/ws/2005/05/identity/claims/givenname";
               val := givenName |} ]
        else claims in
      let claims :=
        if truthiness familyName then
          claims ++
          [ {| typ := "http://schemas.xmlsoap.org/ws/2005/05/identity/claims/surname";
               val := familyName |} ]
        else claims in
      let claims :=
        if truthiness userId then
          claims ++
          [ {| typ := "http://schemas.xmlsoap.org/ws/2005/05/identity/claims/nameidentifier";
               val := userId |} ]
        else claims in
      let claims :=
        if truthiness verifiedEmail then
          claims ++ [ {| typ := "email_verified"; val := verifiedEmail |} ]
        else claims in
      let claims :=
        if String.eqb authProvider "github" then
          claims ++
          map (fun key => {| typ := "urn:github:" +:+ key; val := field key |})
              properties.*1
        else claims in
      ret {| identityProvider := authProvider;
             userDetails := userDetails;
             claims := claims;
             userRoles := [JStr "authenticated"; JStr "anonymous"] |}
  end.

Definition getAuthClientPrincipal (authProvider : string) (codeValue : option string)
    (authConfigs : AuthConfigs) : Async (option ClientPrincipal) :=
  let* authToken :=
    try_catch
      (let* authTokenResponse := getOAuthToken authProvider codeValue authConfigs in
       let* authToken := authTokenOf authProvider authTokenResponse in
       ret (Some authToken))
      (fun error =>
         console_error "Error in getting OAuth token: " error ;;
         ret None) in
  match authToken with
  | None => ret None
  | Some authToken =>
      if negb (truthiness authToken) then ret None
      else
        try_catch
          (let* user := getOAuthUser authProvider authToken in
           let* clientPrincipal := clientPrincipalOf authProvider authConfigs user in
           ret (Some clientPrincipal))
          (fun error =>
             console_error "Error while parsing user information: " error ;;
             ret None)
  end.

(** **** [httpTrigger], l.345-439 *)

(** The roles of the roles source, l.404-409: asked only for a principal
    and a truthy [rolesSource]; whatever is thrown in the block is caught
    and dropped, and the principal stays as it was. *)
Definition addRoles (customAuth : option SWAConfigFileAuth)
    (clientPrincipal : option ClientPrincipal) : Async (option ClientPrincipal) :=
  match clientPrincipal, whenTruthy (customAuth ≫= rolesSource) with
  | Some principal, Some rolesSource =>
      try_catch
        (let* rolesResult := getRoles principal rolesSource in
         let* roles := read rolesResult "roles" in
         match iterate roles with
         | Some roles =>
             ret (Some {| identityProvider := identityProvider principal;
                          userDetails := userDetails principal;
                          claims := claims principal;
                          userRoles := userRoles principal ++ roles |})
         | None => throw TypeError
         end)
        (fun _ => ret clientPrincipal)
  | _, _ => ret clientPrincipal
  end.

(** The answer that ends a login, l.411-438: the auth-context cookie is to
    be deleted, and the session cookie is set when there is a principal to
    put in it. *)
Definition redirect (request : IncomingMessage) (authContext : AuthContext)
    (clientPrincipal : option ClientPrincipal) : Response :=
  let authCookieString := JSON_stringify <$> clientPrincipal in
  let authCookieEncrypted :=
    match whenTruthy authCookieString with
    | Some authCookieString => encryptAndSign authCookieString
    | None => authCookieString
    end in
  let authCookie := btoa <$> whenTruthy authCookieEncrypted in
  let cookiesManager := {| requestCookies := headers_cookie request; calls := [] |} in
  let cookiesManager := addCookieToDelete "StaticWebAppsAuthContextCookie" cookiesManager in
  let cookiesManager :=
    match whenTruthy authCookie with
    | Some authCookie =>
        addCookieToSet
          {| cookie_name := "StaticWebAppsAuthCookie";
             cookie_value := authCookie;
             cookie_domain := DEFAULT_CONFIG_host;
             cookie_path := "/";
             cookie_secure := true;
             cookie_httpOnly := true;
             cookie_expires := toUTCString (Date_now + 1000 * 60 * 60 * 8) |}
          cookiesManager
    | None => cookiesManager
    end in
  response 302
    [ ("status", HNum 302);
      ("Location", HStr (default "/" (postLoginRedirectUri authContext))) ]
    "" (Some cookiesManager).

Definition text_plain : list (string * header) := [ ("Content-Type", HStr "text/plain") ].

(** The function returns nothing; what it leaves is the context. *)
Definition httpTrigger (context : Context) (request : IncomingMessage)
    (customAuth : option SWAConfigFileAuth) : Async Context :=
  let providerName := normalizeAuthProvider (provider context) in
  if negb (bool_decide (providerName ∈ SUPPORTED_CUSTOM_AUTH_PROVIDERS)) then
    ret (set_res (response 400 text_plain ("Provider '" +:+ providerName +:+ "' not found") None)
           context)
  else
    match whenTruthy (headers_cookie request) with
    | None => ret (set_res (response 401 text_plain "Invalid login request" None) context)
    | Some cookie =>
        if negb (validateAuthContextCookie cookie) then
          ret (set_res (response 401 text_plain "Invalid login request" None) context)
        else
          match new_URL (template (url request))
                  (Some (SWA_CLI_APP_PROTOCOL +:+ "://" +:+ template (headers_host request))) with
          | None => throw TypeError
          | Some url =>
              let codeValue := searchParams_get url "code" in
              let stateValue := searchParams_get url "state" in
              match decodeAuthContextCookie cookie with
              | None => ret (set_res (response 401 text_plain "Invalid login request" None) context)
              | Some authContext =>
                  match whenTruthy (authNonce authContext) with
                  | None =>
                      ret (set_res (response 401 text_plain "Invalid login request" None) context)
                  | Some nonce =>
                      if negb (bool_decide (Some (hashStateGuid nonce) = stateValue)) then
                        ret (set_res (response 401 text_plain "Invalid login request" None)
                               context)
                      else if isNonceExpired nonce then
                        ret (set_res
                               (response 401 text_plain "Login timed out. Please try again." None)
                               context)
                      else
                        match checkCustomAuthConfigFields context providerName customAuth with
                        | (None, context) => ret context
                        | (Some authConfigs, context) =>
                            let* clientPrincipal :=
                              getAuthClientPrincipal providerName codeValue authConfigs in
                            let* clientPrincipal := addRoles customAuth clientPrincipal in
                            ret (set_res (redirect request authContext clientPrincipal) context)
                        end
                  end
              end
          end
    end.

(** *** What is read off a request *)

(** The cookie header, when it is there, not empty and valid. *)
Definition validCookie (request : IncomingMessage) : option string :=
  match whenTruthy (headers_cookie request) with
  | Some cookie => if validateAuthContextCookie cookie then Some cookie else None
  | None => None
  end.

(** The URL of the request, when it parses. *)
Definition requestUrl (request : IncomingMessage) : option URL :=
  new_URL (template (url request))
    (Some (SWA_CLI_APP_PROTOCOL +:+ "://" +:+ template (headers_host request))).

(** The [code] and [state] query parameters. *)
Definition codeValue (request : IncomingMessage) : option string :=
  requestUrl request ≫= fun url => searchParams_get url "code".

Definition stateValue (request : IncomingMessage) : option string :=
  requestUrl request ≫= fun url => searchParams_get url "state".

(** The auth context of a valid cookie, and its nonce when it has one that
    is not empty. *)
Definition storedContext (request : IncomingMessage) : option AuthContext :=
  validCookie request ≫= decodeAuthContextCookie.

Definition storedNonce (request : IncomingMessage) : option string :=
  storedContext request ≫= fun authContext => whenTruthy (authNonce authContext).

(** The [state] parameter is the hash of the stored nonce. *)
Definition stateMatches (request : IncomingMessage) : bool :=
  match storedNonce request with
  | Some nonce => bool_decide (Some (hashStateGuid nonce) = stateValue request)
  | None => false
  end.

Definition nonceExpired (request : IncomingMessage) : bool :=
  match storedNonce request with
  | Some nonce => isNonceExpired nonce
  | None => false
  end.

(** A request that passes every check of [httpTrigger] before the login:
    the provider is supported, the cookie valid, the URL parses, the state
    is the hash of the stored nonce, the nonce has not expired, and the
    configuration check hands back the fields of the provider. *)
Definition passes (context : Context) (request : IncomingMessage)
    (customAuth : option SWAConfigFileAuth)
    (authContext : AuthContext) (authConfigs : AuthConfigs) (context' : Context) : Prop :=
  normalizeAuthProvider (provider context) ∈ SUPPORTED_CUSTOM_AUTH_PROVIDERS /\
  storedContext request = Some authContext /\
  requestUrl request <> None /\
  stateMatches request = true /\
  nonceExpired request = false /\
  checkCustomAuthConfigFields context (normalizeAuthProvider (provider context)) customAuth
    = (Some authConfigs, context').

(** The response sets the session cookie. *)
Definition setsSessionCookie (r : Response) : Prop :=
  exists manager cookie,
    cookies r = Some manager /\
    AddCookieToSet cookie ∈ calls manager /\
    cookie_name cookie = "StaticWebAppsAuthCookie".

(** The response has the auth-context cookie deleted. *)
Definition deletesAuthContextCookie (r : Response) : Prop :=
  exists manager,
    cookies r = Some manager /\
    AddCookieToDelete "StaticWebAppsAuthContextCookie" ∈ calls manager.

End Route.

(** *** Sample values *)

Module Sample.

Definition google : Endpoint :=
  {| endpoint_host := "oauth2.googleapis.com"; endpoint_path := "/token" |}.

Definition googleUser : Endpoint :=
  {| endpoint_host := "www.googleapis.com"; endpoint_path := "/oauth2/v2/userinfo" |}.

Definition github : Endpoint :=
  {| endpoint_host := "github.com"; endpoint_path := "/login/oauth/access_token" |}.

Definition githubUser : Endpoint :=
  {| endpoint_host := "api.github.com"; endpoint_path := "/user" |}.

(** The profile the user endpoints answer with. *)
Definition alice : any :=
  JObj [("login", JStr "alice"); ("name", JStr "Alice A"); ("picture", JStr "p.png")].

(** A parser for the few bodies of the sample network. *)
Definition parseBody (s : string) : option any :=
  if String.eqb s "{login:alice,name:Alice A,picture:p.png}" then Some alice
  else if String.eqb s "{roles:[admin]}" then Some (JObj [("roles", JArr [JStr "admin"])])
  else if String.eqb s "{}" then Some (JObj [])
  else None.

(** [key=value] pairs separated by [&]. *)
Definition parsePairs (s : string) : list (string * string) :=
  omap (fun pair =>
          match String_split "=" pair with
          | [key; value] => Some (key, value)
          | _ => None
          end)
       (String_split "&" s).

Definition parseQuery (s : string) : any :=
  JObj (map (fun pair => (pair.1, JStr pair.2)) (parsePairs s)).

Definition stringifyQuery (query : list (string * any)) : string :=
  join "&"
    (map (fun pair =>
            pair.1 +:+ "=" +:+ match pair.2 with JStr s => s | _ => "" end)
         query).

(** URLs of the two shapes the samples need: the address of the roles
    source, and a path with a query; a path that starts with two slashes
    has no host and does not parse. *)
Definition parseURL (url : string) (base : optstr) : option URL :=
  if String.eqb url "http://127.0.0.1:7071" then
    Some {| url_protocol := "http:"; url_hostname := "127.0.0.1"; url_port := "7071";
            searchParams := [] |}
  else if startsWith url "//" then None
  else
    Some {| url_protocol := "http:"; url_hostname := "localhost"; url_port := "4280";
            searchParams :=
              match String_split "?" url with
              | [_; query] => parsePairs query
              | _ => []
              end |}.

(** The network: the token endpoint takes the code [c-1], the user endpoint
    the token [t-1]; the roles source answers by path. *)
Definition answers (via : protocol) (options : RequestOptions) (data : optstr) : Reply :=
  if bool_decide (host options = Some "oauth2.googleapis.com") then
    if includes (template data) "code=c-1&" then End "access_token=t-1"
    else End "error=invalid_grant"
  else if bool_decide (host options = Some "www.googleapis.com") then
    match entry "Authorization" (headers options) with
    | Some (HStr "Bearer t-1") => End "{login:alice,name:Alice A,picture:p.png}"
    | _ => Error "socket hang up"
    end
  else if bool_decide (path options = Some "/api/roles") then End "{roles:[admin]}"
  else if bool_decide (path options = Some "/api/text") then End "no roles today"
  else if bool_decide (path options = Some "/api/empty") then End "{}"
  else Error "connect ECONNREFUSED".

(** A network on which every request fails. *)
Definition unplugged (via : protocol) (options : RequestOptions) (data : optstr) : Reply :=
  Error "getaddrinfo ENOTFOUND".

(** A network on which no request is ever answered. *)
Definition mute (via : protocol) (options : RequestOptions) (data : optstr) : Reply :=
  Silence.

Definition settings : AuthConfigs :=
  {[ "clientIdSettingName" := "client-1"; "clientSecretSettingName" := "secret-1" ]}.

(** An environment around a network: Google and GitHub are supported and
    have endpoints, the cookie [StaticWebAppsAuthContextCookie=fresh] holds
    the nonce [n-1], [...=stale] the expired nonce [n-0], and the provider is
    configured when there is an [auth] section at all. *)
Definition world (network : protocol -> RequestOptions -> optstr -> Reply) : Environment :=
  {| SUPPORTED_CUSTOM_AUTH_PROVIDERS := ["google"; "github"; "aad"; "facebook"; "twitter"; "dummy"];
     CUSTOM_AUTH_ISS_MAPPING := [("google", "https://accounts.google.com"); ("github", "")];
     CUSTOM_AUTH_TOKEN_ENDPOINT_MAPPING := [("google", google); ("github", github)];
     CUSTOM_AUTH_USER_ENDPOINT_MAPPING := [("google", googleUser); ("github", githubUser)];
     SWA_CLI_API_URI := Some "http://localhost:7071";
     SWA_CLI_APP_PROTOCOL := "http";
     DEFAULT_CONFIG_host := Some "localhost";
     DEFAULT_CONFIG_port := Some "4280";
     validateAuthContextCookie := fun cookie => startsWith cookie "StaticWebAppsAuthContextCookie=";
     decodeAuthContextCookie := fun cookie =>
       if String.eqb cookie "StaticWebAppsAuthContextCookie=fresh" then
         Some {| authNonce := Some "n-1"; postLoginRedirectUri := Some "/home" |}
       else if String.eqb cookie "StaticWebAppsAuthContextCookie=stale" then
         Some {| authNonce := Some "n-0"; postLoginRedirectUri := None |}
       else None;
     encryptAndSign := fun s => Some ("sealed:" +:+ s);
     hashStateGuid := fun nonce => "hash-of-" +:+ nonce;
     isNonceExpired := fun nonce => String.eqb nonce "n-0";
     checkCustomAuthConfigFields := fun context providerName customAuth =>
       match customAuth with
       | Some _ => (Some settings, context)
       | None =>
           (None,
            set_res (response 400 text_plain
                       ("Provider '" +:+ providerName +:+ "' is not configured") None)
                    context)
       end;
     normalizeAuthProvider := fun providerName => default "" providerName;
     parseUrl := fun _ =>
       {| parsed_protocol := Some "http:"; parsed_hostname := Some "localhost";
          parsed_port := Some "7071" |};
     jwtDecode := fun _ => None;
     JSON_parse := parseBody;
     JSON_stringify := fun clientPrincipal =>
       "{" +:+ identityProvider clientPrincipal +:+ ":"
         +:+ join "," (map (fun role => match role with JStr s => s | _ => "" end)
                           (userRoles clientPrincipal)) +:+ "}";
     querystring_parse := parseQuery;
     querystring_stringify := stringifyQuery;
     Buffer_byteLength := String.length;
     Buffer_base64 := fun s => "base64:" +:+ s;
     btoa := fun s => "base64:" +:+ s;
     String_replace := fun s _ _ => s;
     Number_toString := fun _ => "NaN";
     new_URL := parseURL;
     Date_now := 1700000000000;
     toUTCString := fun t => pretty t;
     network := network |}.

Definition env : Environment := world answers.

Definition offline : Environment := world unplugged.

Definition silent : Environment := world mute.

Definition context : Context := {| provider := Some "google"; res := None |}.

Definition unknown : Context := {| provider := Some "myspace"; res := None |}.

(** An [auth] section without a roles source, and three with one. *)
Definition config : SWAConfigFileAuth :=
  {| rolesSource := None; identityProviders := JObj [] |}.

Definition configWithRoles : SWAConfigFileAuth :=
  {| rolesSource := Some "/api/roles"; identityProviders := JObj [] |}.

Definition configTextRoles : SWAConfigFileAuth :=
  {| rolesSource := Some "/api/text"; identityProviders := JObj [] |}.

Definition configEmptyRoles : SWAConfigFileAuth :=
  {| rolesSource := Some "/api/empty"; identityProviders := JObj [] |}.

Definition configDownRoles : SWAConfigFileAuth :=
  {| rolesSource := Some "/api/down"; identityProviders := JObj [] |}.

(** What the cookie of the requests below decodes to. *)
Definition fresh : AuthContext :=
  {| authNonce := Some "n-1"; postLoginRedirectUri := Some "/home" |}.

(** The callback of a login that went well. *)
Definition goodRequest : IncomingMessage :=
  {| url := Some "/.auth/login/google/callback?code=c-1&state=hash-of-n-1";
     headers_cookie := Some "StaticWebAppsAuthContextCookie=fresh";
     headers_host := Some "localhost:4280" |}.

(** The same without a cookie header. *)
Definition noCookie : IncomingMessage :=
  {| url := Some "/.auth/login/google/callback?code=c-1&state=hash-of-n-1";
     headers_cookie := None;
     headers_host := Some "localhost:4280" |}.

(** A state that is not the hash of the nonce. *)
Definition forgedState : IncomingMessage :=
  {| url := Some "/.auth/login/google/callback?code=c-1&state=guess";
     headers_cookie := Some "StaticWebAppsAuthContextCookie=fresh";
     headers_host := Some "localhost:4280" |}.

(** A request target that is no URL: two slashes and no host. *)
Definition unparsable : IncomingMessage :=
  {| url := Some "//?code=c-1&state=hash-of-n-1";
     headers_cookie := Some "StaticWebAppsAuthContextCookie=fresh";
     headers_host := Some "localhost:4280" |}.

(** An expired nonce, with the state that matches it and with one that does
    not. *)
Definition staleRequest : IncomingMessage :=
  {| url := Some "/.auth/login/google/callback?code=c-1&state=hash-of-n-0";
     headers_cookie := Some "StaticWebAppsAuthContextCookie=stale";
     headers_host := Some "localhost:4280" |}.

Definition staleForged : IncomingMessage :=
  {| url := Some "/.auth/login/google/callback?code=c-1&state=guess";
     headers_cookie := Some "StaticWebAppsAuthContextCookie=stale";
     headers_host := Some "localhost:4280" |}.

(** The principal of [alice] for Google. *)
Definition principal : ClientPrincipal :=
  {| identityProvider := "google";
     userDetails := JStr "alice";
     claims :=
       [ {| typ := "iss"; val := JStr "https://accounts.google.com" |};
         {| typ := "azp"; val := JStr "client-1" |};
         {| typ := "aud"; val := JStr "client-1" |};
         {| typ := "http://schemas.xmlsoap.org/ws/2005/05/identity/claims/emailaddress";
            val := JStr "alice" |};
         {| typ := "name"; val := JStr "Alice A" |};
         {| typ := "picture"; val := JStr "p.png" |} ];
     userRoles := [JStr "authenticated"; JStr "anonymous"] |}.

End Sample.

End AuthCallback.

(** * Properties *)

(** ** JavaScript primitives *)

Module JSFacts.
Import JS.

Lemma startsWith_spec s t : startsWith s t = true <-> exists post, s = t +:+ post.
Proof.
  revert s. induction t as [|c t IH]; intros s; simpl.
  - split; [intros _; exists s; reflexivity|reflexivity].
  - destruct s as [|d s].
    + split; [done|intros [post Hpost]; discriminate].
    + rewrite andb_true_iff, IH. split.
      * intros [Hcd [post ->]]. apply Ascii.eqb_eq in Hcd as ->. by exists post.
      * intros [post Hpost]. injection Hpost as -> ->.
        split; [apply Ascii.eqb_refl|by exists post].
Qed.

Lemma includes_spec s t : includes s t = true <-> substring_of t s.
Proof.
  unfold substring_of. induction s as [|c s IH]; simpl.
  - rewrite orb_false_r, startsWith_spec. split.
    + intros [post ->]. by exists "", post.
    + intros [pre [post Heq]]. destruct pre; [by exists post|discriminate].
  - rewrite orb_true_iff, startsWith_spec, IH. split.
    + intros [[post ->]|[pre [post ->]]].
      * by exists "", post.
      * by exists (String c pre), post.
    + intros [pre [post Heq]]. destruct pre as [|d pre].
      * left. by exists post.
      * right. simpl in Heq. injection Heq as -> ->. by exists pre, post.
Qed.

Lemma assoc_nodup l k v : NoDup l.*1 -> (k, v) ∈ l -> assoc k l = Some v.
Proof.
  induction l as [|[k' v'] l IH]; simpl; intros Hnd Hin.
  - by apply elem_of_nil in Hin.
  - apply NoDup_cons in Hnd as [Hnotin Hnd].
    apply elem_of_cons in Hin as [Heq|Hin].
    + injection Heq as <- <-. by rewrite String.eqb_refl.
    + destruct (String.eqb_spec k k') as [->|Hne]; [|by apply IH].
      exfalso. apply Hnotin. apply list_elem_of_fmap. by exists (k', v).
Qed.

Lemma map_read_back (l0 l : list (string * string)) (f : string -> optstr -> string) :
  (forall kv, kv ∈ l -> assoc kv.1 l0 = Some kv.2) ->
  map (fun key => f key (assoc key l0)) l.*1 = map (fun kv => f kv.1 (Some kv.2)) l.
Proof.
  induction l as [|[k v] l IH]; intros Hall; simpl; [done|].
  assert (Hkv : assoc k l0 = Some v) by (apply (Hall (k, v)); left).
  rewrite Hkv. f_equal.
  apply IH. intros kv Hin. apply Hall. by right.
Qed.

(** Reading each key of an object back gives the entry's own value. *)
Lemma keys_read_back (o : obj) (f : string -> optstr -> string) :
  map (fun key => f key (obj_get o key)) (Object_keys o)
  = map (fun kv => f kv.1 (Some kv.2)) (obj_entries o).
Proof.
  unfold Object_keys, obj_get. apply map_read_back.
  intros [k v] Hin. apply assoc_nodup; [apply obj_nodup|done].
Qed.

(** [find] returns the first element that satisfies the test. *)
Lemma find_first {A} (p : A -> bool) (l : list A) :
  (exists x, x ∈ l /\ p x = true) ->
  exists before d after,
    l = before ++ d :: after /\
    Forall (fun x => p x = false) before /\
    p d = true /\
    find p l = Some d.
Proof.
  induction l as [|x l IH]; intros [y [Hin Hy]].
  - by apply elem_of_nil in Hin.
  - destruct (p x) eqn:Hx.
    + exists [], x, l. simpl. by rewrite Hx.
    + apply elem_of_cons in Hin as [->|Hin]; [congruence|].
      destruct IH as (before & d & after & -> & Hbefore & Hd & Hfind); [by exists y|].
      exists (x :: before), d, after. simpl. rewrite Hx.
      repeat split; try done. by constructor.
Qed.

Lemma find_none {A} (p : A -> bool) (l : list A) :
  Forall (fun x => p x = false) l -> find p l = None.
Proof. induction 1 as [|x l Hx _ IH]; simpl; [done|]. by rewrite Hx. Qed.

Lemma append_assoc (a b c : string) : (a +:+ b) +:+ c = a +:+ (b +:+ c).
Proof.
  induction a as [|x a IH]; [reflexivity|].
  change (String x ((a +:+ b) +:+ c) = String x (a +:+ (b +:+ c))). by rewrite IH.
Qed.

Lemma append_empty_r (a : string) : a +:+ "" = a.
Proof.
  induction a as [|x a IH]; [reflexivity|].
  change (String x (a +:+ "") = String x a). by rewrite IH.
Qed.

(** Every element of a list is a substring of the list joined. *)
Lemma substring_of_join sep (l : list string) x :
  x ∈ l -> substring_of x (join sep l).
Proof.
  unfold substring_of, join. induction l as [|y l IH]; intros Hin.
  - by apply elem_of_nil in Hin.
  - destruct l as [|z l].
    + apply list_elem_of_singleton in Hin as ->. exists "", "".
      change (y = y +:+ ""). by rewrite append_empty_r.
    + apply elem_of_cons in Hin as [->|Hin].
      * exists "", (sep +:+ String.concat sep (z :: l)). reflexivity.
      * destruct (IH Hin) as (pre & post & Heq).
        exists (y +:+ sep +:+ pre), post.
        change (String.concat sep (y :: z :: l))
          with (y +:+ sep +:+ String.concat sep (z :: l)).
        rewrite Heq. by rewrite !append_assoc.
Qed.

End JSFacts.


(** ** The login command *)

Module LoginFacts.
Import JS JSFacts Login.

Section Facts.

Variable amb : Ambient.

(** *** [storeProjectCredentialsInEnvFile] *)

Lemma push_new_app content key value lines :
  push_new content key value lines = lines ++ lines_of_nonempty content [(key, value)].
Proof.
  unfold push_new, entry_of, lines_of_nonempty. destruct value as [v|]; simpl.
  - destruct (String.eqb v ""); simpl; [by rewrite app_nil_r|].
    destruct (includes content _); simpl; [by rewrite app_nil_r|done].
  - by rewrite app_nil_r.
Qed.

Lemma new_lines_chain content sub ten cid sec :
  push_new content "AZURE_CLIENT_SECRET" sec
    (push_new content "AZURE_CLIENT_ID" cid
      (push_new content "AZURE_TENANT_ID" ten
        (push_new content "AZURE_SUBSCRIPTION_ID" sub [])))
  = lines_of_nonempty content (credentials sub ten cid sec).
Proof.
  rewrite !push_new_app, app_nil_l. unfold lines_of_nonempty, credentials.
  rewrite <- !omap_app. reflexivity.
Qed.

(** The command, with its local bindings named. *)
Lemma store_unfold sub ten cid sec fs :
  storeProjectCredentialsInEnvFile amb sub ten cid sec fs =
  let new := lines_of_nonempty (previous_content amb fs) (credentials sub ten cid sec) in
  let content := join LF (serialized (dotenv_parse amb (previous_content amb fs)) ++ new) in
  if (0 <? List.length new)%nat then
    (<[envFilePath amb := content]> fs,
     [ WriteFile (envFilePath amb) content;
       LoggerLog ("✔ Saved project credentials in " +:+ ENV_FILENAME amb +:+ " file.");
       UpdateGitIgnore (ENV_FILENAME amb) ])
  else (fs, []).
Proof.
  unfold storeProjectCredentialsInEnvFile.
  fold (envFilePath amb). fold (previous_content amb fs).
  rewrite new_lines_chain.
  rewrite (keys_read_back (dotenv_parse amb (previous_content amb fs))
             (fun key v => key +:+ "=" +:+ template v)).
  reflexivity.
Qed.

Lemma lines_of_nonempty_cons content kv creds :
  lines_of_nonempty content (kv :: creds)
  = lines_of_nonempty content [kv] ++ lines_of_nonempty content creds.
Proof. apply (omap_app _ [kv] creds). Qed.

(** No line is added exactly when every credential is falsy or already there. *)
Lemma lines_of_nonempty_nil content creds :
  lines_of_nonempty content creds = [] <->
  Forall (fun kv => truthy kv.2 = false \/
                    substring_of (kv.1 +:+ "=" +:+ template kv.2) content) creds.
Proof.
  induction creds as [|[k v] creds IH].
  - split; [by constructor|done].
  - rewrite lines_of_nonempty_cons, Forall_cons, <- IH. clear IH.
    rewrite <- includes_spec.
    unfold lines_of_nonempty at 1. simpl.
    destruct v as [v|]; simpl.
    + destruct (String.eqb v ""); simpl; [intuition auto|].
      destruct (includes content (k +:+ "=" +:+ v)); simpl; intuition (auto; discriminate).
    + intuition auto.
Qed.

(** C8. When each of the four credentials is either undefined or already
    present in the env file as the exact text [KEY=value], the command
    leaves the file system as it was and performs no effect at all: no write
    of the env file and no update of the git ignore file. *)
Theorem store_nothing_new_no_write sub ten cid sec fs :
  (sub = None \/
   substring_of ("AZURE_SUBSCRIPTION_ID=" +:+ template sub) (previous_content amb fs)) ->
  (ten = None \/
   substring_of ("AZURE_TENANT_ID=" +:+ template ten) (previous_content amb fs)) ->
  (cid = None \/
   substring_of ("AZURE_CLIENT_ID=" +:+ template cid) (previous_content amb fs)) ->
  (sec = None \/
   substring_of ("AZURE_CLIENT_SECRET=" +:+ template sec) (previous_content amb fs)) ->
  storeProjectCredentialsInEnvFile amb sub ten cid sec fs = (fs, []).
Proof.
  intros Hsub Hten Hcid Hsec. rewrite store_unfold. cbv zeta.
  assert (Hnil : lines_of_nonempty (previous_content amb fs) (credentials sub ten cid sec) = []).
  { apply lines_of_nonempty_nil. unfold credentials.
    repeat (apply List.Forall_cons; [|]); try apply List.Forall_nil; simpl.
    - destruct Hsub as [->|?]; [by left|by right].
    - destruct Hten as [->|?]; [by left|by right].
    - destruct Hcid as [->|?]; [by left|by right].
    - destruct Hsec as [->|?]; [by left|by right]. }
  by rewrite Hnil.
Qed.

(** C9, as amended. A call that writes the env file writes exactly this: the
    entries of the parsed previous content as [KEY=value] lines, then one
    [KEY=value] line for each credential, in order, whose value is defined,
    is not the empty string, and whose [KEY=value] text was not a substring
    of the previous content; all joined by line feeds. The file holds that
    content afterwards. *)
Theorem store_written_content sub ten cid sec fs path content :
  WriteFile path content ∈ (storeProjectCredentialsInEnvFile amb sub ten cid sec fs).2 ->
  path = envFilePath amb /\
  content = join LF (serialized (dotenv_parse amb (previous_content amb fs))
                       ++ lines_of_nonempty (previous_content amb fs)
                            (credentials sub ten cid sec)) /\
  (storeProjectCredentialsInEnvFile amb sub ten cid sec fs).1 !! envFilePath amb
  = Some content.
Proof.
  rewrite store_unfold. cbv zeta.
  destruct (0 <? List.length _)%nat; simpl; intros Hin.
  - apply elem_of_cons in Hin as [Heq|Hin].
    + injection Heq as -> ->. split; [done|]. split; [done|]. apply lookup_insert_eq.
    + apply elem_of_cons in Hin as [Heq|Hin]; [discriminate|].
      apply list_elem_of_singleton in Hin. discriminate.
  - by apply elem_of_nil in Hin.
Qed.

(** X1. The command performs effects exactly when some credential is truthy and
    its [KEY=value] text is not yet a substring of the env file. *)
Theorem store_effects_iff sub ten cid sec fs :
  (storeProjectCredentialsInEnvFile amb sub ten cid sec fs).2 = [] <->
  Forall (fun kv => truthy kv.2 = false \/
                    substring_of (kv.1 +:+ "=" +:+ template kv.2) (previous_content amb fs))
         (credentials sub ten cid sec).
Proof.
  rewrite <- lines_of_nonempty_nil, store_unfold. cbv zeta.
  destruct (lines_of_nonempty _ _) as [|line lines]; simpl; split; done.
Qed.

(** X2. The command itself writes no file but the env file, and when it
    does anything it does exactly three things in this order: it writes the
    env file, logs that it saved the credentials, and calls
    [updateGitIgnore] with the env file name. *)
Theorem store_frame sub ten cid sec fs :
  (forall p, p <> envFilePath amb ->
     (storeProjectCredentialsInEnvFile amb sub ten cid sec fs).1 !! p = fs !! p) /\
  ((storeProjectCredentialsInEnvFile amb sub ten cid sec fs).2 = [] \/
   exists content,
     (storeProjectCredentialsInEnvFile amb sub ten cid sec fs).2 =
     [ WriteFile (envFilePath amb) content;
       LoggerLog ("✔ Saved project credentials in " +:+ ENV_FILENAME amb +:+ " file.");
       UpdateGitIgnore (ENV_FILENAME amb) ]).
Proof.
  rewrite store_unfold. cbv zeta.
  destruct (0 <? List.length _)%nat; simpl; split; try done.
  - intros p Hp. by rewrite lookup_insert_ne.
  - right. by eexists.
  - by left.
Qed.

(** None of the effects of the command is a call to the Azure account or a
    prompt. *)
Lemma store_asks_nothing sub ten cid sec fs :
  Forall (fun e => asks e = false)
    (storeProjectCredentialsInEnvFile amb sub ten cid sec fs).2.
Proof.
  rewrite store_unfold. cbv zeta.
  destruct (0 <? List.length _)%nat; simpl; by repeat constructor.
Qed.

(** *** [tryGetAzTenantAndSubscription] *)

(** C10. Without an Azure login config file the options come back as they
    were. With one whose profile lists a subscription that is the default
    ([isDefault == true]), [tenantId] and [subscriptionId] of the options are
    overwritten with the [tenantId] and [id] of the first such subscription,
    whatever the caller had put there, and every other option is as it was. *)
Theorem tryGetAzTenantAndSubscription_spec (options : Options) (fs : FileSystem) :
  (pathExists amb (AZURE_LOGIN_CONFIG amb) fs = false ->
   (tryGetAzTenantAndSubscription amb options fs).1 = options) /\
  (forall azureProfile allSubscriptions,
     pathExists amb (AZURE_LOGIN_CONFIG amb) fs = true ->
     safeReadJson amb (AZURE_LOGIN_CONFIG amb) fs = Some azureProfile ->
     subscriptions azureProfile = Some allSubscriptions ->
     (exists s, s ∈ allSubscriptions /\ loosely_true (info_isDefault s) = true) ->
     exists before d after,
       allSubscriptions = before ++ d :: after /\
       Forall (fun s => loosely_true (info_isDefault s) = false) before /\
       loosely_true (info_isDefault d) = true /\
       (tryGetAzTenantAndSubscription amb options fs).1 !! "tenantId"
         = Some (of_optstr (info_tenantId d)) /\
       (tryGetAzTenantAndSubscription amb options fs).1 !! "subscriptionId"
         = Some (of_optstr (info_id d)) /\
       (forall k, k <> "tenantId" -> k <> "subscriptionId" ->
          (tryGetAzTenantAndSubscription amb options fs).1 !! k = options !! k)).
Proof.
  unfold tryGetAzTenantAndSubscription. split.
  - intros ->. reflexivity.
  - intros azureProfile allSubscriptions -> -> -> Hex. simpl.
    apply find_first in Hex as (before & d & after & -> & Hbefore & Hd & Hfind).
    exists before, d, after. rewrite Hfind. simpl.
    repeat split; try done.
    + rewrite lookup_insert_ne by done. apply lookup_insert_eq.
    + apply lookup_insert_eq.
    + intros k Hk1 Hk2. by rewrite !lookup_insert_ne.
Qed.

(** X3. With an Azure login config file that cannot be read, or that lists no
    subscriptions, or none that is the default, the options come back as
    they were, and the only effect is one debug line. *)
Theorem tryGet_without_default (options : Options) (fs : FileSystem) :
  pathExists amb (AZURE_LOGIN_CONFIG amb) fs = true ->
  (safeReadJson amb (AZURE_LOGIN_CONFIG amb) fs = None \/
   exists azureProfile,
     safeReadJson amb (AZURE_LOGIN_CONFIG amb) fs = Some azureProfile /\
     (subscriptions azureProfile = None \/
      exists allSubscriptions,
        subscriptions azureProfile = Some allSubscriptions /\
        Forall (fun s => loosely_true (info_isDefault s) = false) allSubscriptions)) ->
  tryGetAzTenantAndSubscription amb options fs =
  (options,
   [ LoggerSilly
       ("Found an existing Azure config file, getting Tenant and Subscription Id from "
          +:+ AZURE_LOGIN_CONFIG amb) ]).
Proof.
  intros Hexists Hcase. unfold tryGetAzTenantAndSubscription. rewrite Hexists. simpl.
  destruct Hcase as [->|(azureProfile & -> & [->|(allSubscriptions & -> & Hnone)])];
    try done.
  by rewrite (find_none _ _ Hnone).
Qed.

(** *** [setupProjectCredentials], [login] and [loginCommand] *)

Ltac run_command :=
  unfold setupProjectCredentials, resolveTenant, resolveSubscription, storeCredentials,
    tryGetDefaults, logWhenToken, authenticate, andThen, ret, throw, emit, request.

(** X4. With a tenant and a subscription named in the options, the setup asks
    nothing: it makes no call to the Azure account and prompts for nothing,
    stores the four credentials of the options, and resolves with the
    credential chain it was given and the subscription of the options. *)
Theorem setup_asks_nothing options chain fs :
  truthy (get_str options "tenantId") = true ->
  truthy (get_str options "subscriptionId") = true ->
  exists effects,
    setupProjectCredentials amb options chain fs =
    (Resolved {| credentialChain := chain;
                 subscriptionId := get_str options "subscriptionId" |},
     (storeProjectCredentialsInEnvFile amb
        (get_str options "subscriptionId") (get_str options "tenantId")
        (get_str options "clientId") (get_str options "clientSecret") fs).1,
     effects) /\
    Forall (fun e => asks e = false) effects.
Proof.
  intros Htenant Hsub. run_command. rewrite Htenant, Hsub. simpl.
  pose proof (store_asks_nothing (get_str options "subscriptionId")
                (get_str options "tenantId") (get_str options "clientId")
                (get_str options "clientSecret") fs) as Hstore.
  destruct (storeProjectCredentialsInEnvFile amb _ _ _ _ fs) as [fs' effects].
  simpl in *. eexists. split; [reflexivity|].
  rewrite app_nil_r. by repeat constructor.
Qed.

(** X5. With no tenant named and an account that has none, the setup rejects
    with the message about tenants, after the one call that lists them, and
    leaves the file system as it was. *)
Theorem setup_without_tenants options chain fs :
  truthy (get_str options "tenantId") = false ->
  listTenants amb chain = Resolved [] ->
  setupProjectCredentials amb options chain fs =
  (Rejected ("No Azure tenants found in your account." +:+ LF +:+
             "  Please read https://docs.microsoft.com/azure/cost-management-billing/manage/troubleshoot-sign-in-issue"),
   fs, [ListTenants chain]).
Proof.
  intros Htenant Hnone. run_command. rewrite Htenant, Hnone. reflexivity.
Qed.

(** X6. With a tenant named, no subscription named and an account that has
    none, the setup rejects with the message that names the tenant, and
    leaves the file system as it was. *)
Theorem setup_without_subscriptions options chain fs :
  truthy (get_str options "tenantId") = true ->
  truthy (get_str options "subscriptionId") = false ->
  listSubscriptions amb chain = Resolved [] ->
  setupProjectCredentials amb options chain fs =
  (Rejected ("No valid subscription found for tenant "
             +:+ template (get_str options "tenantId") +:+ "." +:+ LF +:+
             "  Please read https://docs.microsoft.com/azure/cost-management-billing/manage/no-subscriptions-found"),
   fs,
   [ LoggerSilly ("Selected tenant: " +:+ template (get_str options "tenantId"));
     ListSubscriptions chain ]).
Proof.
  intros Htenant Hsub Hnone. run_command. rewrite Htenant, Hsub. simpl.
  rewrite Hnone. reflexivity.
Qed.

(** X7. When the first authentication is refused, the login rejects with the
    message of the refusal before anything else happens: the file system is
    as it was, and the effects are the opening log line and the refused
    call. *)
Theorem login_refused options fs message :
  authenticateWithAzureIdentity amb (get_str options "tenantId")
    (get_str options "clientId") (get_str options "clientSecret")
    (get options "useKeychain") (get options "clearCredentials") = Rejected message ->
  login amb options fs =
  (Rejected message, fs,
   [ LoggerLog "Checking Azure session...";
     Authenticate (get_str options "tenantId") (get_str options "clientId")
       (get_str options "clientSecret") (get options "useKeychain")
       (get options "clearCredentials") ]).
Proof.
  intros Hrefused. unfold login. run_command. simpl. rewrite Hrefused. reflexivity.
Qed.

(** X8. The login command never rejects. If the login resolves with a
    subscription, the last effect is the line of success; in every other
    case, a login that rejects included, the last effect is the message
    about filing an issue followed by the exit, and a rejection is logged as
    an error with its message just before. *)
Theorem loginCommand_never_rejects options fs :
  exists fs' effects,
    loginCommand amb options fs = (Resolved tt, fs', effects) /\
    (last effects = Some (LoggerLog "✔ Successfully setup project!") \/
     last effects = Some LogGitHubIssueMessageAndExit) /\
    (forall message fs1 effects1,
       login amb options fs = (Rejected message, fs1, effects1) ->
       fs' = fs1 /\
       effects = effects1 ++ [ LoggerError ("Failed to setup project: " +:+ message);
                               LogGitHubIssueMessageAndExit ]).
Proof.
  unfold loginCommand, try_catch, andThen.
  destruct (login amb options fs) as [[[result|message] fs1] effects1].
  - destruct (truthy (subscriptionId result)); simpl;
      do 2 eexists; (split; [reflexivity|]); (split; [|done]).
    + left. by rewrite last_app.
    + right. by rewrite last_app.
  - simpl. do 2 eexists. split; [reflexivity|]. split.
    + right. by rewrite last_app.
    + by intros ? ? ? [= <- <- <-].
Qed.

(** X9. With no tenant named and an account that has exactly one, that
    tenant is taken without a prompt and without a second authentication:
    when a subscription is named too, the only call is the one that lists
    the tenants, and the credentials stored are the subscription of the
    options and the tenant listed. *)
Theorem setup_single_tenant options chain fs tenant :
  truthy (get_str options "tenantId") = false ->
  truthy (get_str options "subscriptionId") = true ->
  listTenants amb chain = Resolved [tenant] ->
  exists effects,
    setupProjectCredentials amb options chain fs =
    (Resolved {| credentialChain := chain;
                 subscriptionId := get_str options "subscriptionId" |},
     (storeProjectCredentialsInEnvFile amb
        (get_str options "subscriptionId") (tenant_tenantId tenant)
        (get_str options "clientId") (get_str options "clientSecret") fs).1,
     ListTenants chain :: effects) /\
    Forall (fun e => asks e = false) effects.
Proof.
  intros Htenant Hsub Hone. run_command. rewrite Htenant, Hone. simpl. rewrite Hsub. simpl.
  pose proof (store_asks_nothing (get_str options "subscriptionId")
                (tenant_tenantId tenant) (get_str options "clientId")
                (get_str options "clientSecret") fs) as Hstore.
  destruct (storeProjectCredentialsInEnvFile amb _ _ _ _ fs) as [fs' effects].
  simpl in *. eexists. split; [reflexivity|].
  rewrite app_nil_r. by repeat constructor.
Qed.

Lemma get_str_of_optstr (options : Options) key v :
  get_str (<[key := of_optstr v]> options) key = v.
Proof. unfold get_str. rewrite lookup_insert_eq. by destruct v. Qed.

Lemma get_str_other (options : Options) key key' v :
  key <> key' -> get_str (<[key := v]> options) key' = get_str options key'.
Proof. intros Hne. unfold get_str. by rewrite lookup_insert_ne. Qed.

(** X10. When the Azure CLI profile has a default subscription with a tenant
    and an id, a login that authenticates stores the tenant and the id of
    that default, whatever tenant and subscription the options named, next
    to the client id and secret of the options, and resolves with the first
    credential chain and the id of the default; nothing is listed and
    nothing is prompted for. *)
Theorem login_takes_cli_default options fs chain token azureProfile allSubscriptions d :
  authenticateWithAzureIdentity amb (get_str options "tenantId")
    (get_str options "clientId") (get_str options "clientSecret")
    (get options "useKeychain") (get options "clearCredentials") = Resolved chain ->
  getToken amb chain (defaultScope amb) = Resolved token ->
  pathExists amb (AZURE_LOGIN_CONFIG amb) fs = true ->
  safeReadJson amb (AZURE_LOGIN_CONFIG amb) fs = Some azureProfile ->
  subscriptions azureProfile = Some allSubscriptions ->
  find (fun s => loosely_true (info_isDefault s)) allSubscriptions = Some d ->
  truthy (info_tenantId d) = true ->
  truthy (info_id d) = true ->
  exists effects,
    login amb options fs =
    (Resolved {| credentialChain := chain; subscriptionId := info_id d |},
     (storeProjectCredentialsInEnvFile amb (info_id d) (info_tenantId d)
        (get_str options "clientId") (get_str options "clientSecret") fs).1,
     effects) /\
    Forall (fun e => match e with
                     | ListTenants _ | ListSubscriptions _
                     | ChooseTenant _ _ | ChooseSubscription _ _ => False
                     | _ => True
                     end) effects.
Proof.
  intros Hauth Htoken Hexists Hread Hsubs Hfind Htenant Hid.
  pose proof (store_asks_nothing (info_id d) (info_tenantId d) (get_str options "clientId")
                (get_str options "clientSecret") fs) as Hstore.
  assert (Hquiet : Forall (fun e => match e with
                     | ListTenants _ | ListSubscriptions _
                     | ChooseTenant _ _ | ChooseSubscription _ _ => False
                     | _ => True
                     end)
                     (storeProjectCredentialsInEnvFile amb (info_id d) (info_tenantId d)
                        (get_str options "clientId") (get_str options "clientSecret") fs).2).
  { eapply Forall_impl; [exact Hstore|]. intros [] Hask; simpl in *; done. }
  clear Hstore.
  unfold login. run_command. simpl. rewrite Hauth. simpl. rewrite Htoken.
  destruct token; simpl.
  all: unfold tryGetAzTenantAndSubscription; rewrite Hexists, Hread, Hsubs, Hfind; simpl.
  all: rewrite get_str_of_optstr.
  all: rewrite (get_str_other _ "subscriptionId" "tenantId") by done.
  all: rewrite get_str_of_optstr.
  all: rewrite !(get_str_other _ _ "clientId"), !(get_str_other _ _ "clientSecret") by done.
  all: rewrite Htenant, Hid; simpl.
  all: destruct (storeProjectCredentialsInEnvFile amb _ _ _ _ fs) as [fs' effects].
  all: simpl in *; eexists; (split; [reflexivity|]).
  all: rewrite app_nil_r; repeat (constructor; [done|]); done.
Qed.

(** *** The env file after the command *)

Lemma previous_content_written fs content :
  previous_content amb (<[envFilePath amb := content]> fs) = content.
Proof.
  unfold previous_content, existsSync, readFile. by rewrite lookup_insert_eq.
Qed.

Lemma elem_of_lines_of_nonempty content creds line :
  line ∈ lines_of_nonempty content creds <->
  exists k v,
    (k, Some v) ∈ creds /\ v <> "" /\
    ~ substring_of (k +:+ "=" +:+ v) content /\
    line = k +:+ "=" +:+ v.
Proof.
  unfold lines_of_nonempty. rewrite list_elem_of_omap. split.
  - intros ([k [v|]] & Hin & Hline); simpl in Hline; [|done].
    destruct (String.eqb_spec v "") as [|Hne]; [done|].
    destruct (includes content (k +:+ "=" +:+ v)) eqn:Hinc; [done|].
    injection Hline as <-. exists k, v. repeat split; try done.
    rewrite <- includes_spec, Hinc. done.
  - intros (k & v & Hin & Hne & Hnew & ->). exists (k, Some v). split; [done|]. simpl.
    apply String.eqb_neq in Hne. rewrite Hne.
    destruct (includes content (k +:+ "=" +:+ v)) eqn:Hinc; [|done].
    by apply includes_spec in Hinc.
Qed.

(** X11. A call that writes the env file loses no setting and adds what was
    missing: every entry of the parsed previous content, and every
    credential that is defined, not empty and was not yet in the file, is
    in the written content as its [KEY=value] text. *)
Theorem store_keeps_settings sub ten cid sec fs path content :
  WriteFile path content ∈ (storeProjectCredentialsInEnvFile amb sub ten cid sec fs).2 ->
  (forall k v,
     (k, v) ∈ obj_entries (dotenv_parse amb (previous_content amb fs)) ->
     substring_of (k +:+ "=" +:+ v) content) /\
  (forall k v,
     (k, Some v) ∈ credentials sub ten cid sec ->
     v <> "" ->
     ~ substring_of (k +:+ "=" +:+ v) (previous_content amb fs) ->
     substring_of (k +:+ "=" +:+ v) content).
Proof.
  rewrite store_unfold. cbv zeta.
  pose proof (elem_of_lines_of_nonempty (previous_content amb fs)
                (credentials sub ten cid sec)) as Hadded.
  set (new := lines_of_nonempty _ _) in *.
  set (old := serialized _).
  destruct (0 <? List.length new)%nat; cbn [fst snd]; intros Hin;
    [|by apply elem_of_nil in Hin].
  apply elem_of_cons in Hin as [Heq|Hin].
  2:{ apply elem_of_cons in Hin as [Heq|Hin]; [discriminate|].
      apply list_elem_of_singleton in Hin. discriminate. }
  assert (Hcontent : content = join LF (old ++ new)) by congruence.
  rewrite Hcontent. clear Heq Hcontent. split.
  - intros k v Hkv. apply substring_of_join. apply elem_of_app. left.
    unfold old, serialized. apply list_elem_of_fmap. by exists (k, v).
  - intros k v Hkv Hne Hnew. apply substring_of_join. apply elem_of_app. right.
    apply Hadded. by exists k, v.
Qed.

(** X12. When none of the truthy credentials is in the env file yet, running
    the command a second time with the same credentials changes nothing:
    the file system stays as the first run left it and there is no effect. *)
Theorem store_again_changes_nothing sub ten cid sec fs :
  Forall (fun kv => truthy kv.2 = false \/
                    ~ substring_of (kv.1 +:+ "=" +:+ template kv.2) (previous_content amb fs))
         (credentials sub ten cid sec) ->
  storeProjectCredentialsInEnvFile amb sub ten cid sec
    (storeProjectCredentialsInEnvFile amb sub ten cid sec fs).1
  = ((storeProjectCredentialsInEnvFile amb sub ten cid sec fs).1, []).
Proof.
  intros Hfresh.
  pose proof (elem_of_lines_of_nonempty (previous_content amb fs)
                (credentials sub ten cid sec)) as Hadded.
  rewrite (store_unfold sub ten cid sec fs). cbv zeta.
  set (new := lines_of_nonempty (previous_content amb fs) _) in *.
  destruct (0 <? List.length new)%nat eqn:Hlen; cbn [fst snd].
  - rewrite store_unfold. cbv zeta. rewrite previous_content_written.
    set (written := join LF _).
    assert (Hnone : lines_of_nonempty written (credentials sub ten cid sec) = []).
    { apply lines_of_nonempty_nil. apply Forall_forall.
      intros [k [v|]] Hin; cbn [fst snd]; [|by left].
      destruct (String.eqb_spec v "") as [->|Hne]; [by left|]. right.
      rewrite Forall_forall in Hfresh.
      destruct (Hfresh _ Hin) as [Hfalsy|Habsent]; cbn [fst snd] in *.
      { exfalso. apply negb_false_iff, String.eqb_eq in Hfalsy. done. }
      apply substring_of_join. apply elem_of_app. right.
      apply Hadded. by exists k, v. }
    by rewrite Hnone.
  - rewrite store_unfold. cbv zeta. fold new. by rewrite Hlen.
Qed.

(** *** More than one tenant, one subscription *)

(** X14. With no tenant named and an account that has several, the tenant is
    the one the prompt returns; the setup then authenticates again for that
    tenant with the credentials cleared, and goes on with the new credential
    chain: the subscriptions are listed with it, the only one listed is
    taken without a prompt, and the setup resolves with the new chain and
    that subscription, after storing it with the chosen tenant. *)
Theorem setup_many_tenants options chain fs first second others choice chain' token only :
  truthy (get_str options "tenantId") = false ->
  truthy (get_str options "subscriptionId") = false ->
  listTenants amb chain = Resolved (first :: second :: others) ->
  chooseTenant amb (first :: second :: others) (get_str options "tenantId")
    = Resolved choice ->
  authenticateWithAzureIdentity amb
    (match choice with Some t => tenant_tenantId t | None => None end)
    (get_str options "clientId") (get_str options "clientSecret")
    (get options "useKeychain") (VBool true) = Resolved chain' ->
  getToken amb chain' (defaultScope amb) = Resolved token ->
  listSubscriptions amb chain' = Resolved [only] ->
  exists effects,
    setupProjectCredentials amb options chain fs =
    (Resolved {| credentialChain := chain';
                 subscriptionId := subscription_subscriptionId only |},
     (storeProjectCredentialsInEnvFile amb
        (subscription_subscriptionId only)
        (match choice with Some t => tenant_tenantId t | None => None end)
        (get_str options "clientId") (get_str options "clientSecret") fs).1,
     [ ListTenants chain;
       ChooseTenant (first :: second :: others) (get_str options "tenantId");
       Authenticate (match choice with Some t => tenant_tenantId t | None => None end)
         (get_str options "clientId") (get_str options "clientSecret")
         (get options "useKeychain") (VBool true);
       GetToken chain' (defaultScope amb) ] ++ effects) /\
    ListSubscriptions chain' ∈ effects /\
    Forall (fun e => match e with
                     | ListTenants _ | ChooseTenant _ _ | ChooseSubscription _ _
                     | Authenticate _ _ _ _ _ => False
                     | _ => True
                     end) effects.
Proof.
  intros Htenant Hsub Hmany Hchoice Hauth Htoken Hone.
  pose proof (store_asks_nothing (subscription_subscriptionId only)
                (match choice with Some t => tenant_tenantId t | None => None end)
                (get_str options "clientId") (get_str options "clientSecret") fs) as Hstore.
  assert (Hquiet : Forall (fun e => match e with
                     | ListTenants _ | ChooseTenant _ _ | ChooseSubscription _ _
                     | Authenticate _ _ _ _ _ => False
                     | _ => True
                     end)
                     (storeProjectCredentialsInEnvFile amb
                        (subscription_subscriptionId only)
                        (match choice with Some t => tenant_tenantId t | None => None end)
                        (get_str options "clientId") (get_str options "clientSecret") fs).2).
  { eapply Forall_impl; [exact Hstore|]. intros [] Hask; simpl in *; done. }
  clear Hstore.
  run_command. rewrite Htenant, Hmany. simpl. rewrite Hchoice. simpl.
  rewrite Hauth. simpl. rewrite Htoken.
  destruct token; simpl.
  all: rewrite Hsub; simpl; rewrite Hone; simpl.
  all: destruct (storeProjectCredentialsInEnvFile amb _ _ _ _ fs) as [fs1 effects1].
  all: simpl in *; eexists; (split; [reflexivity|]).
  all: rewrite app_nil_r; split.
  all: try (repeat (constructor; [done|]); done).
  - do 2 right. left.
  - right. left.
Qed.

(** X15. With a tenant named, no subscription named and an account that has
    exactly one, that subscription is taken without a prompt: the only call
    is the one that lists the subscriptions, and the setup stores and
    resolves with the subscription listed. *)
Theorem setup_single_subscription options chain fs only :
  truthy (get_str options "tenantId") = true ->
  truthy (get_str options "subscriptionId") = false ->
  listSubscriptions amb chain = Resolved [only] ->
  exists before after,
    setupProjectCredentials amb options chain fs =
    (Resolved {| credentialChain := chain;
                 subscriptionId := subscription_subscriptionId only |},
     (storeProjectCredentialsInEnvFile amb
        (subscription_subscriptionId only) (get_str options "tenantId")
        (get_str options "clientId") (get_str options "clientSecret") fs).1,
     before ++ ListSubscriptions chain :: after) /\
    Forall (fun e => asks e = false) (before ++ after).
Proof.
  intros Htenant Hsub Hone. run_command. rewrite Htenant. simpl. rewrite Hsub, Hone. simpl.
  pose proof (store_asks_nothing (subscription_subscriptionId only)
                (get_str options "tenantId") (get_str options "clientId")
                (get_str options "clientSecret") fs) as Hstore.
  destruct (storeProjectCredentialsInEnvFile amb _ _ _ _ fs) as [fs1 effects1].
  simpl in *.
  exists [LoggerSilly ("Selected tenant: " +:+ template (get_str options "tenantId"))].
  eexists. split; [reflexivity|].
  rewrite app_nil_r. simpl. by repeat constructor.
Qed.

(** *** What reaches the log *)

Lemma andThen_resolved {A B} (m : Cmd A) (k : A -> Cmd B) fs b fs' effects :
  andThen m k fs = (Resolved b, fs', effects) ->
  exists a fs1 effects1 effects2,
    m fs = (Resolved a, fs1, effects1) /\
    k a fs1 = (Resolved b, fs', effects2) /\
    effects = effects1 ++ effects2.
Proof.
  unfold andThen. destruct (m fs) as [[[a|message] fs1] effects1]; [|done].
  destruct (k a fs1) as [[r fs2] effects2] eqn:Hk. intros [= -> <- <-].
  by exists a, fs1, effects1, effects2.
Qed.

(** X16. A setup that resolves has written the four credentials to the
    debug log as one object, the client secret of the options in clear
    among them. *)
Theorem setup_logs_the_secret options chain fs result fs' effects :
  setupProjectCredentials amb options chain fs = (Resolved result, fs', effects) ->
  exists tenant,
    LoggerSillyObject
      [ ("subscriptionId", subscriptionId result); ("tenantId", tenant);
        ("clientId", get_str options "clientId");
        ("clientSecret", get_str options "clientSecret") ] ∈ effects.
Proof.
  unfold setupProjectCredentials. intros Hrun.
  apply andThen_resolved in Hrun as (tenant & fs1 & e1 & e1' & _ & Hrun & ->).
  apply andThen_resolved in Hrun as (? & fs2 & e2 & e2' & _ & Hrun & ->).
  apply andThen_resolved in Hrun as (sub & fs3 & e3 & e3' & _ & Hrun & ->).
  apply andThen_resolved in Hrun as (? & fs4 & e4 & e4' & _ & Hrun & ->).
  apply andThen_resolved in Hrun as (? & fs5 & e5 & e5' & _ & Hrun & ->).
  apply andThen_resolved in Hrun as (? & fs6 & e6 & e6' & Hlog & Hrun & ->).
  apply andThen_resolved in Hrun as (? & fs7 & e7 & e7' & _ & Hrun & ->).
  unfold ret in Hrun. unfold emit in Hlog.
  assert (Hresult : subscriptionId result = sub) by (injection Hrun as <-; done).
  assert (He6 : e6 = [ LoggerSillyObject
                         [ ("subscriptionId", sub); ("tenantId", tenant.1);
                           ("clientId", get_str options "clientId");
                           ("clientSecret", get_str options "clientSecret") ] ])
    by congruence.
  exists tenant.1. rewrite Hresult, He6, !elem_of_app. do 5 right. left. left.
Qed.

(** *** Reading the Azure CLI profile twice *)

(** X17. Reading the defaults of the Azure CLI again changes nothing more:
    the options that come back from a second reading are those of the
    first. *)
Theorem tryGet_idempotent (options : Options) (fs : FileSystem) :
  (tryGetAzTenantAndSubscription amb
     (tryGetAzTenantAndSubscription amb options fs).1 fs).1
  = (tryGetAzTenantAndSubscription amb options fs).1.
Proof.
  unfold tryGetAzTenantAndSubscription.
  destruct (pathExists amb _ fs); simpl; [|done].
  destruct (safeReadJson amb _ fs) as [azureProfile|]; simpl; [|done].
  destruct (subscriptions azureProfile) as [allSubscriptions|]; simpl; [|done].
  destruct (find _ allSubscriptions) as [d|]; simpl; [|done].
  apply map_eq. intros k.
  destruct (decide (k = "subscriptionId")) as [->|Hk1]; [by simplify_map_eq|].
  destruct (decide (k = "tenantId")) as [->|Hk2]; by simplify_map_eq.
Qed.

(** X18. With a tenant named, no subscription named, an account that has
    several and a prompt that comes back without a choice, the setup still
    resolves, with no subscription, and still stores what it has: the
    tenant, the client id and the client secret, without a subscription. *)
Theorem setup_prompt_without_choice options chain fs first second others :
  truthy (get_str options "tenantId") = true ->
  truthy (get_str options "subscriptionId") = false ->
  listSubscriptions amb chain = Resolved (first :: second :: others) ->
  chooseSubscription amb (first :: second :: others) (get_str options "subscriptionId")
    = Resolved None ->
  exists effects,
    setupProjectCredentials amb options chain fs =
    (Resolved {| credentialChain := chain; subscriptionId := None |},
     (storeProjectCredentialsInEnvFile amb None (get_str options "tenantId")
        (get_str options "clientId") (get_str options "clientSecret") fs).1,
     effects ++
     (storeProjectCredentialsInEnvFile amb None (get_str options "tenantId")
        (get_str options "clientId") (get_str options "clientSecret") fs).2) /\
    ChooseSubscription (first :: second :: others) (get_str options "subscriptionId")
      ∈ effects.
Proof.
  intros Htenant Hsub Hmany Hnone. run_command. rewrite Htenant. simpl.
  rewrite Hsub, Hmany. simpl. rewrite Hnone. simpl.
  destruct (storeProjectCredentialsInEnvFile amb _ _ _ _ fs) as [fs1 effects1].
  simpl. rewrite app_nil_r.
  exists [ LoggerSilly ("Selected tenant: " +:+ template (get_str options "tenantId"));
           ListSubscriptions chain;
           ChooseSubscription (first :: second :: others) (get_str options "subscriptionId");
           LoggerSilly ("Selected subscription: " +:+ template None);
           LoggerSilly "Project credentials:";
           LoggerSillyObject
             [ ("subscriptionId", None); ("tenantId", get_str options "tenantId");
               ("clientId", get_str options "clientId");
               ("clientSecret", get_str options "clientSecret") ] ].
  split; [reflexivity|]. right. right. left.
Qed.

End Facts.

(** *** Sample runs *)

Lemma store_nothing_new_no_write_witness :
  storeProjectCredentialsInEnvFile Sample.amb (Some "sub-1") (Some "ten-1") None None
    Sample.project
  = (Sample.project, []).
Proof.
  apply store_nothing_new_no_write.
  - right. apply includes_spec. vm_compute. reflexivity.
  - right. apply includes_spec. vm_compute. reflexivity.
  - left. reflexivity.
  - left. reflexivity.
Defined.

Lemma store_written_content_witness :
  "/project/.env" = envFilePath Sample.amb /\
  "FOO=bar" +:+ LF +:+ "AZURE_SUBSCRIPTION_ID=sub-1" +:+ LF +:+
  "AZURE_TENANT_ID=ten-1" +:+ LF +:+ "AZURE_CLIENT_ID=app-7"
  = join LF
      (serialized (dotenv_parse Sample.amb (previous_content Sample.amb Sample.project))
       ++ lines_of_nonempty (previous_content Sample.amb Sample.project)
            (credentials (Some "sub-1") (Some "ten-1") (Some "app-7") (Some ""))) /\
  (storeProjectCredentialsInEnvFile Sample.amb (Some "sub-1") (Some "ten-1")
     (Some "app-7") (Some "") Sample.project).1 !! envFilePath Sample.amb
  = Some ("FOO=bar" +:+ LF +:+ "AZURE_SUBSCRIPTION_ID=sub-1" +:+ LF +:+
          "AZURE_TENANT_ID=ten-1" +:+ LF +:+ "AZURE_CLIENT_ID=app-7").
Proof.
  apply (store_written_content Sample.amb (Some "sub-1") (Some "ten-1") (Some "app-7")
           (Some "") Sample.project).
  vm_compute. left.
Defined.

(** C9, as first stated, fails for a credential that is defined but empty:
    with a client id given as the empty string and no env file yet, the
    command writes the subscription and tenant lines only, while the
    defined-and-not-yet-present reading also expects an [AZURE_CLIENT_ID=]
    line. *)
Lemma store_defined_empty_counterexample :
  WriteFile "/project/.env"
      ("AZURE_SUBSCRIPTION_ID=sub-1" +:+ LF +:+ "AZURE_TENANT_ID=ten-1")
    ∈ (storeProjectCredentialsInEnvFile Sample.amb (Some "sub-1") (Some "ten-1")
         (Some "") None ∅).2 /\
  join LF
    (serialized (dotenv_parse Sample.amb (previous_content Sample.amb ∅))
     ++ lines_of_defined (previous_content Sample.amb ∅)
          (credentials (Some "sub-1") (Some "ten-1") (Some "") None))
  = "AZURE_SUBSCRIPTION_ID=sub-1" +:+ LF +:+ "AZURE_TENANT_ID=ten-1" +:+ LF +:+
    "AZURE_CLIENT_ID=" /\
  "AZURE_SUBSCRIPTION_ID=sub-1" +:+ LF +:+ "AZURE_TENANT_ID=ten-1"
  <> "AZURE_SUBSCRIPTION_ID=sub-1" +:+ LF +:+ "AZURE_TENANT_ID=ten-1" +:+ LF +:+
     "AZURE_CLIENT_ID=".
Proof.
  split; [vm_compute; left|]. split; [vm_compute; reflexivity|]. vm_compute. discriminate.
Qed.

Lemma tryGetAzTenantAndSubscription_witness :
  (tryGetAzTenantAndSubscription Sample.amb Sample.callerOptions ∅).1
  = Sample.callerOptions /\
  exists before d after,
    [ {| info_id := Some "sub-1"; info_tenantId := Some "ten-1"; info_isDefault := Some false |};
      {| info_id := Some "sub-2"; info_tenantId := Some "ten-2"; info_isDefault := Some true |};
      {| info_id := Some "sub-3"; info_tenantId := Some "ten-3"; info_isDefault := Some true |} ]
    = before ++ d :: after /\
    Forall (fun s => loosely_true (info_isDefault s) = false) before /\
    loosely_true (info_isDefault d) = true /\
    (tryGetAzTenantAndSubscription Sample.amb Sample.callerOptions Sample.machine).1
      !! "tenantId" = Some (of_optstr (info_tenantId d)) /\
    (tryGetAzTenantAndSubscription Sample.amb Sample.callerOptions Sample.machine).1
      !! "subscriptionId" = Some (of_optstr (info_id d)) /\
    (forall k, k <> "tenantId" -> k <> "subscriptionId" ->
       (tryGetAzTenantAndSubscription Sample.amb Sample.callerOptions Sample.machine).1 !! k
       = Sample.callerOptions !! k).
Proof.
  split.
  - apply (tryGetAzTenantAndSubscription_spec Sample.amb Sample.callerOptions ∅).
    vm_compute. reflexivity.
  - apply (proj2 (tryGetAzTenantAndSubscription_spec Sample.amb Sample.callerOptions
                    Sample.machine) Sample.cliProfile).
    + vm_compute. reflexivity.
    + vm_compute. reflexivity.
    + reflexivity.
    + exists {| info_id := Some "sub-2"; info_tenantId := Some "ten-2";
                info_isDefault := Some true |}.
      split; [right; left|reflexivity].
Defined.

Lemma tryGet_without_default_witness :
  tryGetAzTenantAndSubscription Sample.amb Sample.callerOptions Sample.blankMachine =
  (Sample.callerOptions,
   [ LoggerSilly
       ("Found an existing Azure config file, getting Tenant and Subscription Id from "
          +:+ AZURE_LOGIN_CONFIG Sample.amb) ]).
Proof.
  apply tryGet_without_default.
  - vm_compute. reflexivity.
  - right. exists {| subscriptions := None |}. split; [vm_compute; reflexivity|by left].
Defined.

Lemma setup_asks_nothing_witness :
  exists effects,
    setupProjectCredentials Sample.amb Sample.fullOptions 2%nat Sample.project =
    (Resolved {| credentialChain := 2%nat;
                 subscriptionId := get_str Sample.fullOptions "subscriptionId" |},
     (storeProjectCredentialsInEnvFile Sample.amb
        (get_str Sample.fullOptions "subscriptionId") (get_str Sample.fullOptions "tenantId")
        (get_str Sample.fullOptions "clientId") (get_str Sample.fullOptions "clientSecret")
        Sample.project).1,
     effects) /\
    Forall (fun e => asks e = false) effects.
Proof.
  apply setup_asks_nothing; vm_compute; reflexivity.
Defined.

Lemma setup_without_tenants_witness :
  setupProjectCredentials Sample.amb Sample.subscriptionOnly 0%nat Sample.project =
  (Rejected ("No Azure tenants found in your account." +:+ LF +:+
             "  Please read https://docs.microsoft.com/azure/cost-management-billing/manage/troubleshoot-sign-in-issue"),
   Sample.project, [ListTenants 0%nat]).
Proof.
  apply setup_without_tenants.
  - vm_compute. reflexivity.
  - reflexivity.
Defined.

Lemma setup_without_subscriptions_witness :
  setupProjectCredentials Sample.amb Sample.tenantOnly 0%nat Sample.project =
  (Rejected ("No valid subscription found for tenant "
             +:+ template (get_str Sample.tenantOnly "tenantId") +:+ "." +:+ LF +:+
             "  Please read https://docs.microsoft.com/azure/cost-management-billing/manage/no-subscriptions-found"),
   Sample.project,
   [ LoggerSilly ("Selected tenant: " +:+ template (get_str Sample.tenantOnly "tenantId"));
     ListSubscriptions 0%nat ]).
Proof.
  apply setup_without_subscriptions.
  - vm_compute. reflexivity.
  - vm_compute. reflexivity.
  - reflexivity.
Defined.

Lemma login_refused_witness :
  login Sample.amb Sample.refusedClient Sample.project =
  (Rejected "AADSTS700016", Sample.project,
   [ LoggerLog "Checking Azure session...";
     Authenticate (get_str Sample.refusedClient "tenantId")
       (get_str Sample.refusedClient "clientId")
       (get_str Sample.refusedClient "clientSecret")
       (get Sample.refusedClient "useKeychain")
       (get Sample.refusedClient "clearCredentials") ]).
Proof.
  apply login_refused. vm_compute. reflexivity.
Defined.

Lemma setup_single_tenant_witness :
  exists effects,
    setupProjectCredentials Sample.amb Sample.subscriptionOnly 1%nat Sample.project =
    (Resolved {| credentialChain := 1%nat;
                 subscriptionId := get_str Sample.subscriptionOnly "subscriptionId" |},
     (storeProjectCredentialsInEnvFile Sample.amb
        (get_str Sample.subscriptionOnly "subscriptionId")
        (tenant_tenantId {| tenant_tenantId := Some "ten-1" |})
        (get_str Sample.subscriptionOnly "clientId")
        (get_str Sample.subscriptionOnly "clientSecret") Sample.project).1,
     ListTenants 1%nat :: effects) /\
    Forall (fun e => asks e = false) effects.
Proof.
  apply setup_single_tenant.
  - vm_compute. reflexivity.
  - vm_compute. reflexivity.
  - reflexivity.
Defined.

Lemma login_takes_cli_default_witness :
  exists effects,
    login Sample.amb Sample.callerOptions Sample.machine =
    (Resolved {| credentialChain := 2%nat; subscriptionId := Some "sub-2" |},
     (storeProjectCredentialsInEnvFile Sample.amb (Some "sub-2") (Some "ten-2")
        (get_str Sample.callerOptions "clientId")
        (get_str Sample.callerOptions "clientSecret") Sample.machine).1,
     effects) /\
    Forall (fun e => match e with
                     | ListTenants _ | ListSubscriptions _
                     | ChooseTenant _ _ | ChooseSubscription _ _ => False
                     | _ => True
                     end) effects.
Proof.
  apply (login_takes_cli_default Sample.amb Sample.callerOptions Sample.machine 2%nat true
           Sample.cliProfile
           [ {| info_id := Some "sub-1"; info_tenantId := Some "ten-1";
                info_isDefault := Some false |};
             {| info_id := Some "sub-2"; info_tenantId := Some "ten-2";
                info_isDefault := Some true |};
             {| info_id := Some "sub-3"; info_tenantId := Some "ten-3";
                info_isDefault := Some true |} ]
           {| info_id := Some "sub-2"; info_tenantId := Some "ten-2";
              info_isDefault := Some true |});
    vm_compute; reflexivity.
Defined.

Lemma store_keeps_settings_witness :
  substring_of "FOO=bar"
    ("FOO=bar" +:+ LF +:+ "AZURE_SUBSCRIPTION_ID=sub-1" +:+ LF +:+
     "AZURE_TENANT_ID=ten-1" +:+ LF +:+ "AZURE_CLIENT_ID=app-7") /\
  substring_of "AZURE_CLIENT_ID=app-7"
    ("FOO=bar" +:+ LF +:+ "AZURE_SUBSCRIPTION_ID=sub-1" +:+ LF +:+
     "AZURE_TENANT_ID=ten-1" +:+ LF +:+ "AZURE_CLIENT_ID=app-7").
Proof.
  destruct (store_keeps_settings Sample.amb (Some "sub-1") (Some "ten-1") (Some "app-7")
              (Some "") Sample.project "/project/.env"
              ("FOO=bar" +:+ LF +:+ "AZURE_SUBSCRIPTION_ID=sub-1" +:+ LF +:+
               "AZURE_TENANT_ID=ten-1" +:+ LF +:+ "AZURE_CLIENT_ID=app-7"))
    as [Hkept Hadded].
  { vm_compute. left. }
  split.
  - apply (Hkept "FOO" "bar"). vm_compute. left.
  - apply (Hadded "AZURE_CLIENT_ID" "app-7").
    + vm_compute. right. right. left.
    + discriminate.
    + intros Hthere. apply includes_spec in Hthere. vm_compute in Hthere. discriminate.
Defined.

Lemma store_again_changes_nothing_witness :
  storeProjectCredentialsInEnvFile Sample.amb (Some "sub-1") (Some "ten-1") None (Some "")
    (storeProjectCredentialsInEnvFile Sample.amb (Some "sub-1") (Some "ten-1") None
       (Some "") ∅).1
  = ((storeProjectCredentialsInEnvFile Sample.amb (Some "sub-1") (Some "ten-1") None
        (Some "") ∅).1, []).
Proof.
  apply store_again_changes_nothing. unfold credentials.
  repeat (apply List.Forall_cons; [|]); try apply List.Forall_nil.
  - right. intros Hthere. apply includes_spec in Hthere. vm_compute in Hthere. discriminate.
  - right. intros Hthere. apply includes_spec in Hthere. vm_compute in Hthere. discriminate.
  - left. reflexivity.
  - left. reflexivity.
Defined.

Lemma setup_many_tenants_witness :
  exists effects,
    setupProjectCredentials Sample.perTenant ∅ 2%nat Sample.project =
    (Resolved {| credentialChain := 1%nat; subscriptionId := Some "sub-1" |},
     (storeProjectCredentialsInEnvFile Sample.perTenant (Some "sub-1") (Some "ten-1")
        (get_str ∅ "clientId") (get_str ∅ "clientSecret") Sample.project).1,
     [ ListTenants 2%nat;
       ChooseTenant [ {| tenant_tenantId := Some "ten-1" |};
                      {| tenant_tenantId := Some "ten-2" |} ] (get_str ∅ "tenantId");
       Authenticate (Some "ten-1") (get_str ∅ "clientId") (get_str ∅ "clientSecret")
         (get ∅ "useKeychain") (VBool true);
       GetToken 1%nat (defaultScope Sample.perTenant) ] ++ effects) /\
    ListSubscriptions 1%nat ∈ effects /\
    Forall (fun e => match e with
                     | ListTenants _ | ChooseTenant _ _ | ChooseSubscription _ _
                     | Authenticate _ _ _ _ _ => False
                     | _ => True
                     end) effects.
Proof.
  apply (setup_many_tenants Sample.perTenant ∅ 2%nat Sample.project
           {| tenant_tenantId := Some "ten-1" |} {| tenant_tenantId := Some "ten-2" |} []
           (Some {| tenant_tenantId := Some "ten-1" |}) 1%nat true
           {| subscription_subscriptionId := Some "sub-1" |});
    vm_compute; reflexivity.
Defined.

Lemma setup_single_subscription_witness :
  exists before after,
    setupProjectCredentials Sample.amb Sample.tenantOnly 1%nat Sample.project =
    (Resolved {| credentialChain := 1%nat; subscriptionId := Some "sub-1" |},
     (storeProjectCredentialsInEnvFile Sample.amb (Some "sub-1")
        (get_str Sample.tenantOnly "tenantId") (get_str Sample.tenantOnly "clientId")
        (get_str Sample.tenantOnly "clientSecret") Sample.project).1,
     before ++ ListSubscriptions 1%nat :: after) /\
    Forall (fun e => asks e = false) (before ++ after).
Proof.
  apply (setup_single_subscription Sample.amb Sample.tenantOnly 1%nat Sample.project
           {| subscription_subscriptionId := Some "sub-1" |});
    vm_compute; reflexivity.
Defined.

Lemma setup_logs_the_secret_witness :
  get_str Sample.withSecret "clientSecret" = Some "s3cret" /\
  exists result tenant,
    LoggerSillyObject
      [ ("subscriptionId", subscriptionId result); ("tenantId", tenant);
        ("clientId", get_str Sample.withSecret "clientId");
        ("clientSecret", get_str Sample.withSecret "clientSecret") ]
    ∈ (setupProjectCredentials Sample.amb Sample.withSecret 2%nat Sample.project).2.
Proof.
  split; [vm_compute; reflexivity|].
  destruct (setupProjectCredentials Sample.amb Sample.withSecret 2%nat Sample.project)
    as [[[result|message] fs'] effects] eqn:Hrun.
  - destruct (setup_logs_the_secret Sample.amb Sample.withSecret 2%nat Sample.project
                result fs' effects Hrun) as [tenant Hlogged].
    exists result, tenant. exact Hlogged.
  - exfalso. vm_compute in Hrun. discriminate.
Defined.

Lemma setup_prompt_without_choice_witness :
  exists effects,
    setupProjectCredentials Sample.noChoice Sample.tenantOnly 2%nat ∅ =
    (Resolved {| credentialChain := 2%nat; subscriptionId := None |},
     (storeProjectCredentialsInEnvFile Sample.noChoice None
        (get_str Sample.tenantOnly "tenantId") (get_str Sample.tenantOnly "clientId")
        (get_str Sample.tenantOnly "clientSecret") ∅).1,
     effects ++
     (storeProjectCredentialsInEnvFile Sample.noChoice None
        (get_str Sample.tenantOnly "tenantId") (get_str Sample.tenantOnly "clientId")
        (get_str Sample.tenantOnly "clientSecret") ∅).2) /\
    ChooseSubscription
      [ {| subscription_subscriptionId := Some "sub-1" |};
        {| subscription_subscriptionId := Some "sub-2" |} ]
      (get_str Sample.tenantOnly "subscriptionId") ∈ effects.
Proof.
  apply (setup_prompt_without_choice Sample.noChoice Sample.tenantOnly 2%nat ∅
           {| subscription_subscriptionId := Some "sub-1" |}
           {| subscription_subscriptionId := Some "sub-2" |} []);
    vm_compute; reflexivity.
Defined.

End LoginFacts.

(** ** The custom-auth callback route *)

Module AuthCallbackFacts.
Import JS AuthCallback.

(** *** Computations *)

Lemma await_ret {A B} (a : A) (k : A -> Async B) : await (ret a) k = k a.
Proof. unfold await, ret. by destruct (k a). Qed.

Lemma await_returns_inv {A B} (m : Async A) (k : A -> Async B) b events :
  await m k = (Returns b, events) ->
  exists a events1 events2,
    m = (Returns a, events1) /\ k a = (Returns b, events2) /\ events = events1 ++ events2.
Proof.
  destruct m as [[a|e|] events1]; simpl; intros Hrun; try discriminate.
  destruct (k a) as [c events2] eqn:Hk. simpl in Hrun. injection Hrun as -> <-.
  by exists a, events1, events2.
Qed.

Lemma try_catch_returns_inv {A} (m : Async A) (handler : error -> Async A) a events :
  try_catch m handler = (Returns a, events) ->
  m = (Returns a, events) \/
  exists e events1 events2,
    m = (Throws e, events1) /\ handler e = (Returns a, events2) /\
    events = events1 ++ events2.
Proof.
  destruct m as [[a'|e|] events1]; simpl; intros Hrun; try discriminate.
  - by left.
  - right. destruct (handler e) as [c events2] eqn:Hh. simpl in Hrun.
    injection Hrun as -> <-. by exists e, events1, events2.
Qed.

(** A [try] with a handler that returns never throws. *)
Lemma try_catch_settles {A} (m : Async A) (handler : error -> Async A) e :
  (forall e', exists a events, handler e' = (Returns a, events)) ->
  (try_catch m handler).1 <> Throws e.
Proof.
  intros Hhandler. destruct m as [[a|e'|] events]; simpl; try discriminate.
  destruct (Hhandler e') as (a & events' & ->). discriminate.
Qed.

Lemma await_settles {A B} (m : Async A) (k : A -> Async B) e :
  (forall e', m.1 <> Throws e') ->
  (forall a, (k a).1 <> Throws e) ->
  (await m k).1 <> Throws e.
Proof.
  intros Hm Hk. destruct m as [[a|e'|] events]; simpl.
  - apply Hk.
  - by destruct (Hm e').
  - discriminate.
Qed.

Lemma await_pending {A B} (m : Async A) (k : A -> Async B) events :
  m = (Pending, events) -> await m k = (Pending, events).
Proof. by intros ->. Qed.

Section Facts.

Variable env : Environment.

Local Abbreviation SUPPORTED_CUSTOM_AUTH_PROVIDERS := (SUPPORTED_CUSTOM_AUTH_PROVIDERS env).
Local Abbreviation CUSTOM_AUTH_ISS_MAPPING := (CUSTOM_AUTH_ISS_MAPPING env).
Local Abbreviation validateAuthContextCookie := (validateAuthContextCookie env).
Local Abbreviation decodeAuthContextCookie := (decodeAuthContextCookie env).
Local Abbreviation hashStateGuid := (hashStateGuid env).
Local Abbreviation isNonceExpired := (isNonceExpired env).
Local Abbreviation checkCustomAuthConfigFields := (checkCustomAuthConfigFields env).
Local Abbreviation normalizeAuthProvider := (normalizeAuthProvider env).
Local Abbreviation JSON_parse := (JSON_parse env).
Local Abbreviation new_URL := (new_URL env).
Local Abbreviation network := (network env).
Local Abbreviation getOAuthToken := (getOAuthToken env).
Local Abbreviation getOAuthUser := (getOAuthUser env).
Local Abbreviation getRoles := (getRoles env).
Local Abbreviation authTokenOf := (authTokenOf env).
Local Abbreviation clientPrincipalOf := (clientPrincipalOf env).
Local Abbreviation getAuthClientPrincipal := (getAuthClientPrincipal env).
Local Abbreviation addRoles := (addRoles env).
Local Abbreviation redirect := (redirect env).
Local Abbreviation httpTrigger := (httpTrigger env).
Local Abbreviation validCookie := (validCookie env).
Local Abbreviation requestUrl := (requestUrl env).
Local Abbreviation codeValue := (codeValue env).
Local Abbreviation stateValue := (stateValue env).
Local Abbreviation storedContext := (storedContext env).
Local Abbreviation storedNonce := (storedNonce env).
Local Abbreviation stateMatches := (stateMatches env).
Local Abbreviation nonceExpired := (nonceExpired env).
Local Abbreviation passes := (passes env).

(** *** The checks of [httpTrigger], in their order *)

(** [httpTrigger] by what is read off the request: the provider first, then
    the cookie, the URL, the state, the expiry and the configuration. *)
Lemma httpTrigger_checks context request customAuth :
  httpTrigger context request customAuth =
  let providerName := normalizeAuthProvider (provider context) in
  if negb (bool_decide (providerName ∈ SUPPORTED_CUSTOM_AUTH_PROVIDERS)) then
    ret (set_res (response 400 text_plain ("Provider '" +:+ providerName +:+ "' not found") None)
           context)
  else
    match validCookie request, requestUrl request with
    | None, _ => ret (set_res (response 401 text_plain "Invalid login request" None) context)
    | Some _, None => throw TypeError
    | Some _, Some _ =>
        if negb (stateMatches request) then
          ret (set_res (response 401 text_plain "Invalid login request" None) context)
        else if nonceExpired request then
          ret (set_res (response 401 text_plain "Login timed out. Please try again." None)
                 context)
        else
          match storedContext request,
                checkCustomAuthConfigFields context providerName customAuth with
          | Some authContext, (Some authConfigs, context1) =>
              let* clientPrincipal :=
                getAuthClientPrincipal providerName (codeValue request) authConfigs in
              let* clientPrincipal := addRoles customAuth clientPrincipal in
              ret (set_res (redirect request authContext clientPrincipal) context1)
          | Some _, (None, context1) => ret context1
          | None, _ => ret (set_res (response 401 text_plain "Invalid login request" None) context)
          end
    end.
Proof.
  unfold AuthCallback.httpTrigger, AuthCallback.stateMatches, AuthCallback.nonceExpired,
    AuthCallback.storedNonce, AuthCallback.storedContext, AuthCallback.codeValue,
    AuthCallback.stateValue, AuthCallback.validCookie, AuthCallback.requestUrl.
  cbv zeta.
  destruct (bool_decide (_ ∈ _)); simpl; [|reflexivity].
  destruct (whenTruthy (headers_cookie request)) as [cookie|]; simpl; [|reflexivity].
  destruct (validateAuthContextCookie cookie); simpl; [|reflexivity].
  destruct (new_URL _ _) as [url|]; simpl; [|reflexivity].
  destruct (decodeAuthContextCookie cookie) as [authContext|]; simpl; [|reflexivity].
  destruct (whenTruthy (authNonce authContext)) as [nonce|]; simpl; [|reflexivity].
  destruct (bool_decide (Some (hashStateGuid nonce) = _)); simpl; [|reflexivity].
  destruct (isNonceExpired nonce); simpl; [reflexivity|].
  by destruct (checkCustomAuthConfigFields _ _ _) as [[authConfigs|] context1].
Qed.

(** A request that passes every check goes on to the login. *)
Lemma httpTrigger_passes context request customAuth authContext authConfigs context1 :
  passes context request customAuth authContext authConfigs context1 ->
  httpTrigger context request customAuth =
  let* clientPrincipal :=
    getAuthClientPrincipal (normalizeAuthProvider (provider context)) (codeValue request)
      authConfigs in
  let* clientPrincipal := addRoles customAuth clientPrincipal in
  ret (set_res (redirect request authContext clientPrincipal) context1).
Proof.
  intros (Hsupported & Hcontext & Hurl & Hstate & Hfresh & Hconfig).
  rewrite httpTrigger_checks. cbv zeta.
  rewrite bool_decide_eq_true_2 by exact Hsupported. simpl.
  rewrite Hstate, Hfresh, Hcontext, Hconfig.
  unfold AuthCallback.storedContext in Hcontext.
  destruct (validCookie request); [|discriminate].
  by destruct (requestUrl request).
Qed.

(** *** [getAuthClientPrincipal] *)

Lemma authTokenOf_events authProvider authTokenResponse :
  (authTokenOf authProvider authTokenResponse).2 = [].
Proof.
  unfold AuthCallback.authTokenOf, read.
  by destruct (negb _), (ownProperties _).
Qed.

Lemma clientPrincipalOf_events authProvider authConfigs user :
  (clientPrincipalOf authProvider authConfigs user).2 = [].
Proof. unfold AuthCallback.clientPrincipalOf. by destruct (ownProperties user). Qed.

(** The principal starts with the two roles of every signed-in user. *)
Lemma clientPrincipalOf_roles authProvider authConfigs user clientPrincipal events :
  clientPrincipalOf authProvider authConfigs user = (Returns clientPrincipal, events) ->
  userRoles clientPrincipal = [JStr "authenticated"; JStr "anonymous"].
Proof.
  unfold AuthCallback.clientPrincipalOf.
  destruct (ownProperties user); [|discriminate]. by intros [= <- _].
Qed.

(** A token exchange that throws, or whose promise is rejected, leaves no
    principal; the error goes to the console. *)
Lemma getAuthClientPrincipal_no_token authProvider code authConfigs e events :
  getOAuthToken authProvider code authConfigs = (Throws e, events) ->
  getAuthClientPrincipal authProvider code authConfigs =
  (Returns None, events ++ [ConsoleError "Error in getting OAuth token: " e]).
Proof.
  intros Htoken. unfold AuthCallback.getAuthClientPrincipal. rewrite Htoken. simpl.
  by rewrite !app_nil_r.
Qed.

(** So does a user that cannot be fetched. *)
Lemma getAuthClientPrincipal_no_user authProvider code authConfigs body token e events1 events2 :
  getOAuthToken authProvider code authConfigs = (Returns (Some body), events1) ->
  (authTokenOf authProvider (Some body)).1 = Returns token ->
  truthiness token = true ->
  getOAuthUser authProvider token = (Throws e, events2) ->
  getAuthClientPrincipal authProvider code authConfigs =
  (Returns None,
   (events1 ++ events2) ++ [ConsoleError "Error while parsing user information: " e]).
Proof.
  intros Htoken Hpick Htruthy Huser. unfold AuthCallback.getAuthClientPrincipal.
  rewrite Htoken. simpl.
  pose proof (authTokenOf_events authProvider (Some body)) as Hpure.
  destruct (authTokenOf authProvider (Some body)) as [picked events] eqn:Hrun.
  simpl in Hpick, Hpure. subst picked events. simpl.
  rewrite Htruthy. simpl. rewrite Huser. simpl.
  by rewrite !app_nil_r, app_assoc.
Qed.

(** A principal comes only of a token exchange that returned a body, a
    truthy token in it, and a user that was fetched. *)
Lemma getAuthClientPrincipal_some authProvider code authConfigs clientPrincipal events :
  getAuthClientPrincipal authProvider code authConfigs = (Returns (Some clientPrincipal), events) ->
  exists body token user events1 events2,
    getOAuthToken authProvider code authConfigs = (Returns (Some body), events1) /\
    (authTokenOf authProvider (Some body)).1 = Returns token /\
    truthiness token = true /\
    getOAuthUser authProvider token = (Returns user, events2) /\
    clientPrincipalOf authProvider authConfigs user = (Returns clientPrincipal, []) /\
    events = events1 ++ events2.
Proof.
  unfold AuthCallback.getAuthClientPrincipal. intros Hrun.
  apply await_returns_inv in Hrun as (authToken & eventsA & eventsB & Htoken & Hrest & ->).
  destruct authToken as [token|]; [|discriminate].
  destruct (truthiness token) eqn:Htruthy; simpl in Hrest; [|discriminate].
  apply try_catch_returns_inv in Htoken as [Htoken|(e & ? & ? & _ & Hhandler & _)];
    [|discriminate].
  apply await_returns_inv in Htoken as (response & events1 & eventsC & Htoken & Hpick & ->).
  apply await_returns_inv in Hpick as (token' & eventsD & eventsE & Hpick & [= -> <-] & ->).
  pose proof (authTokenOf_events authProvider response) as Hpure.
  rewrite Hpick in Hpure. simpl in Hpure. subst eventsD.
  destruct response as [body|].
  2: { unfold AuthCallback.authTokenOf, read in Hpick.
       by destruct (negb _) in Hpick. }
  apply try_catch_returns_inv in Hrest as [Hrest|(e & ? & ? & _ & Hhandler & _)];
    [|discriminate].
  apply await_returns_inv in Hrest as (user & events2 & eventsF & Huser & Hbuild & ->).
  apply await_returns_inv in Hbuild as (built & eventsG & eventsH & Hbuild & [= -> <-] & ->).
  pose proof (clientPrincipalOf_events authProvider authConfigs user) as Hpure.
  rewrite Hbuild in Hpure. simpl in Hpure. subst eventsG.
  exists body, token, user, events1, events2.
  rewrite Hpick. simpl. by rewrite !app_nil_r.
Qed.

(** A token, a user and the principal built from the user. *)
Lemma getAuthClientPrincipal_built authProvider code authConfigs body token user principal
    events1 events2 :
  getOAuthToken authProvider code authConfigs = (Returns (Some body), events1) ->
  (authTokenOf authProvider (Some body)).1 = Returns token ->
  truthiness token = true ->
  getOAuthUser authProvider token = (Returns user, events2) ->
  clientPrincipalOf authProvider authConfigs user = (Returns principal, []) ->
  getAuthClientPrincipal authProvider code authConfigs
  = (Returns (Some principal), events1 ++ events2).
Proof.
  intros Htoken Hpick Htruthy Huser Hbuilt. unfold AuthCallback.getAuthClientPrincipal.
  rewrite Htoken.
  pose proof (authTokenOf_events authProvider (Some body)) as Hpure.
  destruct (authTokenOf authProvider (Some body)) as [picked events] eqn:Hrun.
  simpl in Hpick, Hpure. subst picked events.
  cbn [await try_catch ret fst snd]. rewrite Hrun.
  cbn [await try_catch ret fst snd]. rewrite Htruthy.
  cbn [negb]. rewrite Huser.
  cbn [await try_catch ret fst snd]. rewrite Hbuilt.
  cbn [await try_catch ret fst snd]. by rewrite !app_nil_r.
Qed.

(** Whatever goes wrong, [getAuthClientPrincipal] does not throw. *)
Lemma getAuthClientPrincipal_settles authProvider code authConfigs e :
  (getAuthClientPrincipal authProvider code authConfigs).1 <> Throws e.
Proof.
  unfold AuthCallback.getAuthClientPrincipal. apply await_settles.
  - intros e'. apply try_catch_settles. intros e''. by eexists _, _.
  - intros [token|]; [|discriminate].
    destruct (negb (truthiness token)); [discriminate|].
    apply try_catch_settles. intros e''. by eexists _, _.
Qed.

(** *** The roles of the roles source *)

Lemma addRoles_none customAuth : addRoles customAuth None = ret None.
Proof. reflexivity. Qed.

(** The roles source is not asked without a truthy [rolesSource]. *)
Lemma addRoles_no_source customAuth clientPrincipal :
  whenTruthy (customAuth ≫= rolesSource) = None ->
  addRoles customAuth clientPrincipal = ret clientPrincipal.
Proof. intros Hnone. unfold AuthCallback.addRoles. rewrite Hnone. by destruct clientPrincipal. Qed.

(** A call that throws leaves the principal as it was. *)
Lemma addRoles_rejected customAuth principal source e events :
  whenTruthy (customAuth ≫= rolesSource) = Some source ->
  getRoles principal source = (Throws e, events) ->
  addRoles customAuth (Some principal) = (Returns (Some principal), events).
Proof.
  intros Hsource Hroles. unfold AuthCallback.addRoles. rewrite Hsource, Hroles. simpl.
  by rewrite app_nil_r.
Qed.

(** So does an answer without a [roles] property. *)
Lemma addRoles_without_roles customAuth principal source rolesResult events :
  whenTruthy (customAuth ≫= rolesSource) = Some source ->
  getRoles principal source = (Returns rolesResult, events) ->
  optional_read rolesResult "roles" = JUndefined ->
  addRoles customAuth (Some principal) = (Returns (Some principal), events).
Proof.
  intros Hsource Hroles Hmissing. unfold AuthCallback.addRoles. rewrite Hsource, Hroles.
  unfold read, optional_read in *. simpl.
  destruct (ownProperties rolesResult) as [properties|]; simpl.
  - rewrite Hmissing. simpl. by rewrite !app_nil_r.
  - by rewrite !app_nil_r.
Qed.

(** Roles that can be spread are pushed after the ones the principal has. *)
Lemma addRoles_pushed customAuth principal source rolesResult properties roles events :
  whenTruthy (customAuth ≫= rolesSource) = Some source ->
  getRoles principal source = (Returns rolesResult, events) ->
  ownProperties rolesResult = Some properties ->
  iterate (property "roles" properties) = Some roles ->
  addRoles customAuth (Some principal) =
  (Returns (Some {| identityProvider := identityProvider principal;
                    userDetails := userDetails principal;
                    claims := claims principal;
                    userRoles := userRoles principal ++ roles |}), events).
Proof.
  intros Hsource Hroles Hown Hspread. unfold AuthCallback.addRoles.
  rewrite Hsource, Hroles. unfold read. simpl. rewrite Hown. simpl. rewrite Hspread. simpl.
  by rewrite !app_nil_r.
Qed.

(** The block gives back a principal only when it was given one. *)
Lemma addRoles_some customAuth clientPrincipal augmented events :
  addRoles customAuth clientPrincipal = (Returns (Some augmented), events) ->
  exists principal, clientPrincipal = Some principal.
Proof. destruct clientPrincipal as [principal|]; [by exists principal|]. by rewrite addRoles_none. Qed.

(** Nor does the block of the roles source. *)
Lemma addRoles_settles customAuth clientPrincipal e :
  (addRoles customAuth clientPrincipal).1 <> Throws e.
Proof.
  unfold AuthCallback.addRoles.
  destruct clientPrincipal as [principal|]; [|discriminate].
  destruct (whenTruthy _) as [source|]; [|discriminate].
  apply try_catch_settles. intros e'. by eexists _, _.
Qed.

(** How [getRoles] comes to throw: the address of the roles source does not
    parse, the request fails, or the body of the answer is not JSON. *)
Lemma getRoles_throws principal source e events :
  getRoles principal source = (Throws e, events) ->
  (e = TypeError /\ events = []) \/
  exists via options data,
    events = [Request via options data] /\
    ((exists err, network via options data = Error err /\ e = RequestError err) \/
     (exists body, network via options data = End body /\ JSON_parse body = None /\
                   e = SyntaxError)).
Proof.
  unfold AuthCallback.getRoles. destruct (new_URL _ _) as [targetUrl|].
  2: { intros [= <- <-]. by left. }
  intros Hrun. right.
  match type of Hrun with
  | await (AuthCallback.request _ ?via ?options ?data) _ = _ => exists via, options, data
  end.
  unfold AuthCallback.request, AuthCallback.parse in Hrun.
  destruct (network _ _ _) as [body|err|]; simpl in Hrun.
  - destruct (JSON_parse body) eqn:Hparse; simpl in Hrun; [discriminate|].
    injection Hrun as <- <-. split; [done|]. right. by exists body.
  - injection Hrun as <- <-. split; [done|]. left. by exists err.
  - discriminate.
Qed.

(** *** The answer that ends a login *)

(** Without a principal the answer deletes the auth-context cookie and sets
    nothing. *)
Lemma redirect_without_principal request authContext :
  redirect request authContext None =
  response 302
    [ ("status", HNum 302);
      ("Location", HStr (default "/" (postLoginRedirectUri authContext))) ]
    ""
    (Some {| requestCookies := headers_cookie request;
             calls := [AddCookieToDelete "StaticWebAppsAuthContextCookie"] |}).
Proof. reflexivity. Qed.

Lemma redirect_deletes request authContext clientPrincipal :
  deletesAuthContextCookie (redirect request authContext clientPrincipal).
Proof.
  unfold AuthCallback.redirect, deletesAuthContextCookie. cbv zeta.
  destruct (whenTruthy (AuthCallback.btoa env <$> _)); simpl.
  all: eexists; split; [reflexivity|]; simpl; left.
Qed.

Lemma redirect_status request authContext clientPrincipal :
  status (redirect request authContext clientPrincipal) = 302.
Proof. reflexivity. Qed.

(** A session cookie takes a principal. *)
Lemma redirect_sets request authContext clientPrincipal :
  setsSessionCookie (redirect request authContext clientPrincipal) ->
  exists principal, clientPrincipal = Some principal.
Proof.
  destruct clientPrincipal as [principal|]; [by exists principal|].
  rewrite redirect_without_principal. intros (manager & cookie & [= <-] & Hin & _).
  simpl in Hin. apply list_elem_of_singleton in Hin. discriminate.
Qed.

(** *** The claims *)

(** C1. A session cookie is set only on the answer that ends a login, and
    that answer is reached only by a request that passes every check: a
    supported provider, a cookie that validates, a state that is the hash of
    the stored nonce, a nonce that has not expired, and an accepted provider
    configuration; the cookie is then set only if the token exchange
    returned a body with a truthy token and the user was fetched.  When
    [httpTrigger] returns, one of three things has happened: the
    configuration check refused and [httpTrigger] wrote no response of its
    own; or the response is a 400 or a 401 in plain text that carries no
    cookies at all, so that nothing is deleted; or it is the 302 redirect,
    on which the auth-context cookie is deleted. *)
Theorem session_cookie_only_after_validation context request customAuth context' events :
  httpTrigger context request customAuth = (Returns context', events) ->
  (checkCustomAuthConfigFields context (normalizeAuthProvider (provider context)) customAuth
     = (None, context') /\
   events = [] /\ stateMatches request = true /\ nonceExpired request = false)
  \/
  (exists code message,
     context' = set_res (response code text_plain message None) context /\
     (code = 400 \/ code = 401) /\ events = [])
  \/
  (exists authContext authConfigs context1 clientPrincipal,
     passes context request customAuth authContext authConfigs context1 /\
     context' = set_res (redirect request authContext clientPrincipal) context1 /\
     status (redirect request authContext clientPrincipal) = 302 /\
     deletesAuthContextCookie (redirect request authContext clientPrincipal) /\
     (setsSessionCookie (redirect request authContext clientPrincipal) ->
      exists body token user events1 events2,
        getOAuthToken (normalizeAuthProvider (provider context)) (codeValue request)
          authConfigs = (Returns (Some body), events1) /\
        (authTokenOf (normalizeAuthProvider (provider context)) (Some body)).1
          = Returns token /\
        truthiness token = true /\
        getOAuthUser (normalizeAuthProvider (provider context)) token
          = (Returns user, events2))).
Proof.
  rewrite httpTrigger_checks. cbv zeta.
  destruct (bool_decide (_ ∈ _)) eqn:Hsupported; simpl.
  2: { intros [= <- <-]. right. left. exists 400. eexists. by split; [|split; [left|]]. }
  apply bool_decide_eq_true_1 in Hsupported.
  destruct (validCookie request) as [cookie|] eqn:Hcookie.
  2: { intros [= <- <-]. right. left. exists 401. eexists. by split; [|split; [right|]]. }
  destruct (requestUrl request) as [url|] eqn:Hurl; [|discriminate].
  destruct (stateMatches request) eqn:Hstate; simpl.
  2: { intros [= <- <-]. right. left. exists 401. eexists. by split; [|split; [right|]]. }
  destruct (nonceExpired request) eqn:Hfresh.
  { intros [= <- <-]. right. left. exists 401. eexists. by split; [|split; [right|]]. }
  destruct (storedContext request) as [authContext|] eqn:Hcontext.
  2: { intros [= <- <-]. right. left. exists 401. eexists. by split; [|split; [right|]]. }
  destruct (checkCustomAuthConfigFields _ _ _) as [[authConfigs|] context1] eqn:Hconfig.
  2: { intros [= <- <-]. by left. }
  intros Hrun. right. right.
  apply await_returns_inv in Hrun as (found & events1 & eventsA & Hprincipal & Hrun & ->).
  apply await_returns_inv in Hrun as (final & events2 & eventsB & Hroles & [= <- <-] & ->).
  exists authContext, authConfigs, context1, final.
  split.
  { repeat split; try done. by rewrite Hurl. }
  split; [done|]. split; [reflexivity|]. split; [apply redirect_deletes|].
  intros Hset. apply redirect_sets in Hset as (augmented & ->).
  apply addRoles_some in Hroles as (principal & ->).
  apply getAuthClientPrincipal_some in Hprincipal
    as (body & token & user & eventsC & eventsD & Htoken & Hpick & Htruthy & Huser & _ & _).
  by exists body, token, user, eventsC, eventsD.
Qed.

(** C2. For a supported provider, a request without a valid auth-context
    cookie, or one whose URL parses and whose [state] parameter is not the
    hash of the stored nonce (or that has no stored nonce), is answered 401
    "Invalid login request", and nothing at all has happened before the
    answer.  And whatever the request and however [httpTrigger] ends, a
    request is sent only for a request that passed every check. *)
Theorem invalid_login_before_any_call context request customAuth :
  (normalizeAuthProvider (provider context) ∈ SUPPORTED_CUSTOM_AUTH_PROVIDERS ->
   validCookie request = None \/
   (requestUrl request <> None /\ stateMatches request = false) ->
   httpTrigger context request customAuth =
   (Returns (set_res (response 401 [("Content-Type", HStr "text/plain")]
                        "Invalid login request" None) context), []))
  /\
  (forall via options data,
     Request via options data ∈ (httpTrigger context request customAuth).2 ->
     exists authContext authConfigs context1,
       passes context request customAuth authContext authConfigs context1).
Proof.
  split.
  - intros Hsupported Hinvalid. rewrite httpTrigger_checks. cbv zeta.
    rewrite bool_decide_eq_true_2 by exact Hsupported. simpl.
    destruct Hinvalid as [->|[Hurl Hstate]]; [reflexivity|].
    destruct (validCookie request); [|reflexivity].
    destruct (requestUrl request); [|done]. by rewrite Hstate.
  - intros via options data. rewrite httpTrigger_checks. cbv zeta.
    destruct (bool_decide (_ ∈ _)) eqn:Hsupported; simpl; [|by intros ?%elem_of_nil].
    apply bool_decide_eq_true_1 in Hsupported.
    destruct (validCookie request) as [cookie|] eqn:Hcookie; [|by intros ?%elem_of_nil].
    destruct (requestUrl request) as [url|] eqn:Hurl; [|by intros ?%elem_of_nil].
    destruct (stateMatches request) eqn:Hstate; simpl; [|by intros ?%elem_of_nil].
    destruct (nonceExpired request) eqn:Hfresh; [by intros ?%elem_of_nil|].
    destruct (storedContext request) as [authContext|] eqn:Hcontext;
      [|by intros ?%elem_of_nil].
    destruct (checkCustomAuthConfigFields _ _ _) as [[authConfigs|] context1] eqn:Hconfig;
      [|by intros ?%elem_of_nil].
    intros _. exists authContext, authConfigs, context1.
    repeat split; try done. by rewrite Hurl.
Qed.

(** C3. A provider that is not among the supported ones is answered 400 in
    plain text, with a body that names it, and nothing else happens: no
    request is sent. *)
Theorem unsupported_provider_rejected context request customAuth :
  normalizeAuthProvider (provider context) ∉ SUPPORTED_CUSTOM_AUTH_PROVIDERS ->
  httpTrigger context request customAuth =
  (Returns (set_res (response 400 [("Content-Type", HStr "text/plain")]
                       ("Provider '" +:+ normalizeAuthProvider (provider context)
                          +:+ "' not found") None) context), []).
Proof.
  intros Hunsupported. unfold AuthCallback.httpTrigger. cbv zeta.
  by rewrite bool_decide_eq_false_2.
Qed.

(** C4. For a supported provider, a valid cookie and a [state] parameter
    that is the hash of the stored nonce, an expired nonce is answered 401
    "Login timed out. Please try again.", and no request is sent. *)
Theorem expired_nonce_times_out context request customAuth :
  normalizeAuthProvider (provider context) ∈ SUPPORTED_CUSTOM_AUTH_PROVIDERS ->
  stateMatches request = true ->
  nonceExpired request = true ->
  httpTrigger context request customAuth =
  (Returns (set_res (response 401 [("Content-Type", HStr "text/plain")]
                       "Login timed out. Please try again." None) context), []).
Proof.
  intros Hsupported Hstate Hexpired. rewrite httpTrigger_checks. cbv zeta.
  rewrite bool_decide_eq_true_2 by exact Hsupported. simpl. rewrite Hstate, Hexpired. simpl.
  revert Hstate.
  unfold AuthCallback.stateMatches, AuthCallback.storedNonce, AuthCallback.storedContext,
    AuthCallback.stateValue.
  destruct (validCookie request); [|discriminate].
  destruct (requestUrl request); [reflexivity|].
  simpl. by destruct (decodeAuthContextCookie _ ≫= _).
Qed.

(** C5. For a request that passes every check, a token exchange that throws
    or is rejected, or a user fetch that does, leaves no principal:
    [getAuthClientPrincipal] returns [null] after a line on the console, and
    [httpTrigger] returns, with the 302 redirect that deletes the
    auth-context cookie and sets no cookie. *)
Theorem upstream_failure_still_redirects context request customAuth authContext authConfigs
    context1 e events :
  passes context request customAuth authContext authConfigs context1 ->
  getOAuthToken (normalizeAuthProvider (provider context)) (codeValue request) authConfigs
    = (Throws e, events)
  \/ (exists body token events1 events2,
        getOAuthToken (normalizeAuthProvider (provider context)) (codeValue request)
          authConfigs = (Returns (Some body), events1) /\
        (authTokenOf (normalizeAuthProvider (provider context)) (Some body)).1
          = Returns token /\
        truthiness token = true /\
        getOAuthUser (normalizeAuthProvider (provider context)) token = (Throws e, events2) /\
        events = events1 ++ events2) ->
  exists message,
    getAuthClientPrincipal (normalizeAuthProvider (provider context)) (codeValue request)
      authConfigs = (Returns None, events ++ [ConsoleError message e]) /\
    httpTrigger context request customAuth =
    (Returns
       (set_res
          (response 302
             [ ("status", HNum 302);
               ("Location", HStr (default "/" (postLoginRedirectUri authContext))) ]
             ""
             (Some {| requestCookies := headers_cookie request;
                      calls := [AddCookieToDelete "StaticWebAppsAuthContextCookie"] |}))
          context1),
     events ++ [ConsoleError message e]).
Proof.
  intros Hpasses Hfails.
  assert (exists message,
            getAuthClientPrincipal (normalizeAuthProvider (provider context))
              (codeValue request) authConfigs
            = (Returns None, events ++ [ConsoleError message e])) as (message & Hnone).
  { destruct Hfails as [Htoken|(body & token & events1 & events2 & Htoken & Hpick & Htruthy
                                & Huser & ->)].
    - eexists. by apply getAuthClientPrincipal_no_token.
    - eexists. by eapply getAuthClientPrincipal_no_user. }
  exists message. split; [exact Hnone|].
  rewrite (httpTrigger_passes _ _ _ _ _ _ Hpasses), Hnone. simpl.
  by rewrite !app_nil_r.
Qed.

(** C6. From the user [{login: "alice", name: "Alice A", picture: "p.png"}]
    and for a provider other than GitHub, the principal has six claims, in
    this order: [iss], [azp] and [aud], then the email-address claim
    [alice], the [name] claim [Alice A] and the [picture] claim [p.png];
    there is no [urn:github:] claim, and the roles are [authenticated] and
    [anonymous].  It is the principal [getAuthClientPrincipal] returns when
    the token exchange gave a truthy token and the user fetch this user. *)
Theorem normalize_login_name_picture authProvider authConfigs :
  authProvider <> "github" ->
  let user :=
    JObj [("login", JStr "alice"); ("name", JStr "Alice A"); ("picture", JStr "p.png")] in
  let identifier :=
    of_optstr (or_else_str (authConfigs !! "clientIdSettingName")
                           (authConfigs !! "appIdSettingName")) in
  let principal :=
    {| identityProvider := authProvider;
       userDetails := JStr "alice";
       claims :=
         [ {| typ := "iss"; val := of_optstr (entry authProvider CUSTOM_AUTH_ISS_MAPPING) |};
           {| typ := "azp"; val := identifier |};
           {| typ := "aud"; val := identifier |};
           {| typ := "http://schemas.xmlsoap.org/ws/2005/05/identity/claims/emailaddress";
              val := JStr "alice" |};
           {| typ := "name"; val := JStr "Alice A" |};
           {| typ := "picture"; val := JStr "p.png" |} ];
       userRoles := [JStr "authenticated"; JStr "anonymous"] |} in
  clientPrincipalOf authProvider authConfigs user = (Returns principal, []) /\
  (forall code body token events1 events2,
     getOAuthToken authProvider code authConfigs = (Returns (Some body), events1) ->
     (authTokenOf authProvider (Some body)).1 = Returns token ->
     truthiness token = true ->
     getOAuthUser authProvider token = (Returns user, events2) ->
     getAuthClientPrincipal authProvider code authConfigs
     = (Returns (Some principal), events1 ++ events2)).
Proof.
  intros Hother user identifier principal.
  assert (Hbuilt : clientPrincipalOf authProvider authConfigs user = (Returns principal, [])).
  { unfold AuthCallback.clientPrincipalOf. simpl.
    apply String.eqb_neq in Hother. by rewrite Hother. }
  split; [exact Hbuilt|].
  intros code body token events1 events2 Htoken Hpick Htruthy Huser.
  by eapply getAuthClientPrincipal_built.
Qed.

(** C7. For a principal that [getAuthClientPrincipal] returned and a truthy
    [rolesSource]: the principal has the roles [authenticated] and
    [anonymous]; if [getRoles] throws or is rejected (the request fails, or
    the body of the answer is not JSON), or if its answer has no [roles],
    the principal is left as it is and [httpTrigger] returns the redirect of
    that principal; if the answer is [{roles: ["admin"]}], the roles
    become [authenticated], [anonymous], [admin], the rest of the principal
    stays, and [httpTrigger] returns the redirect of this principal; and
    whatever roles an answer holds are put after the roles the principal
    has, none of which is dropped. *)
Theorem role_augmentor_best_effort context request customAuth authContext authConfigs context1
    principal source events0 :
  passes context request customAuth authContext authConfigs context1 ->
  getAuthClientPrincipal (normalizeAuthProvider (provider context)) (codeValue request)
    authConfigs = (Returns (Some principal), events0) ->
  whenTruthy (customAuth ≫= rolesSource) = Some source ->
  userRoles principal = [JStr "authenticated"; JStr "anonymous"] /\
  (forall events,
     (exists e, getRoles principal source = (Throws e, events)) \/
     (exists rolesResult,
        getRoles principal source = (Returns rolesResult, events) /\
        optional_read rolesResult "roles" = JUndefined) ->
     addRoles customAuth (Some principal) = (Returns (Some principal), events) /\
     httpTrigger context request customAuth =
     (Returns (set_res (redirect request authContext (Some principal)) context1),
      events0 ++ events)) /\
  (forall events,
     getRoles principal source
       = (Returns (JObj [("roles", JArr [JStr "admin"])]), events) ->
     let augmented :=
       {| identityProvider := identityProvider principal;
          userDetails := userDetails principal;
          claims := claims principal;
          userRoles := [JStr "authenticated"; JStr "anonymous"; JStr "admin"] |} in
     addRoles customAuth (Some principal) = (Returns (Some augmented), events) /\
     httpTrigger context request customAuth =
     (Returns (set_res (redirect request authContext (Some augmented)) context1),
      events0 ++ events)) /\
  (forall events rolesResult properties roles,
     getRoles principal source = (Returns rolesResult, events) ->
     ownProperties rolesResult = Some properties ->
     iterate (property "roles" properties) = Some roles ->
     addRoles customAuth (Some principal) =
     (Returns (Some {| identityProvider := identityProvider principal;
                       userDetails := userDetails principal;
                       claims := claims principal;
                       userRoles := userRoles principal ++ roles |}), events)).
Proof.
  intros Hpasses Hprincipal Hsource.
  assert (Hdefault : userRoles principal = [JStr "authenticated"; JStr "anonymous"]).
  { apply getAuthClientPrincipal_some in Hprincipal
      as (body & token & user & events1 & events2 & _ & _ & _ & _ & Hbuilt & _).
    by eapply clientPrincipalOf_roles. }
  split; [exact Hdefault|]. split; [|split].
  3: { intros events rolesResult properties roles Hanswer Hown Hspread.
       by eapply addRoles_pushed. }
  - intros events Hfails.
    assert (Hkept : addRoles customAuth (Some principal) = (Returns (Some principal), events)).
    { destruct Hfails as [(e & Hthrows)|(rolesResult & Hanswer & Hmissing)].
      - by eapply addRoles_rejected.
      - by eapply addRoles_without_roles. }
    split; [exact Hkept|].
    rewrite (httpTrigger_passes _ _ _ _ _ _ Hpasses), Hprincipal.
    cbn [await ret fst snd]. rewrite Hkept.
    cbn [await ret fst snd]. by rewrite !app_nil_r.
  - intros events Hanswer augmented.
    assert (Hpushed : addRoles customAuth (Some principal) = (Returns (Some augmented), events)).
    { rewrite (addRoles_pushed customAuth principal source _ _ [JStr "admin"] events
                 Hsource Hanswer eq_refl eq_refl).
      unfold augmented. by rewrite Hdefault. }
    split; [exact Hpushed|].
    rewrite (httpTrigger_passes _ _ _ _ _ _ Hpasses), Hprincipal.
    cbn [await ret fst snd]. rewrite Hpushed.
    cbn [await ret fst snd]. by rewrite !app_nil_r.
Qed.

(** *** More on the route *)

(** X19. [httpTrigger] throws in one case only: the provider is supported,
    the cookie is valid, and the URL of the request does not parse.  It then
    throws a [TypeError] before anything else happens and writes no
    response.  No failure of the token exchange, of the user fetch or of the
    roles source reaches the caller.  (The imported helpers are taken not to
    throw.) *)
Theorem httpTrigger_throws_only_on_url context request customAuth e events :
  httpTrigger context request customAuth = (Throws e, events) <->
  normalizeAuthProvider (provider context) ∈ SUPPORTED_CUSTOM_AUTH_PROVIDERS /\
  validCookie request <> None /\
  requestUrl request = None /\
  e = TypeError /\ events = [].
Proof.
  rewrite httpTrigger_checks. cbv zeta. split.
  - destruct (bool_decide (_ ∈ _)) eqn:Hsupported; simpl; [|discriminate].
    apply bool_decide_eq_true_1 in Hsupported.
    destruct (validCookie request) as [cookie|]; [|discriminate].
    destruct (requestUrl request) as [url|].
    2: { by intros [= <- <-]. }
    destruct (negb (stateMatches request)); [discriminate|].
    destruct (nonceExpired request); [discriminate|].
    destruct (storedContext request) as [authContext|]; [|discriminate].
    destruct (checkCustomAuthConfigFields _ _ _) as [[authConfigs|] context1];
      [|discriminate].
    intros Hrun. exfalso.
    eapply (await_settles _ _ e); [| |by rewrite Hrun].
    + intros e'. apply getAuthClientPrincipal_settles.
    + intros found. apply await_settles; [|discriminate].
      intros e'. apply addRoles_settles.
  - intros (Hsupported & Hcookie & -> & -> & ->).
    rewrite bool_decide_eq_true_2 by exact Hsupported. simpl.
    by destruct (validCookie request).
Qed.

(** X20. For a provider that has no entry in the token endpoint mapping,
    [getOAuthToken] returns [null] and sends nothing;
    [getAuthClientPrincipal] then fails to read a token off that answer,
    writes the [TypeError] to the console and returns [null]: no request is
    sent for such a provider. *)
Theorem provider_without_token_endpoint authProvider code authConfigs :
  authProvider ∉ (CUSTOM_AUTH_TOKEN_ENDPOINT_MAPPING env).*1 ->
  getOAuthToken authProvider code authConfigs = (Returns None, []) /\
  getAuthClientPrincipal authProvider code authConfigs
  = (Returns None, [ConsoleError "Error in getting OAuth token: " TypeError]).
Proof.
  intros Hmissing.
  assert (Hnull : getOAuthToken authProvider code authConfigs = (Returns None, [])).
  { unfold AuthCallback.getOAuthToken. cbv zeta. by rewrite bool_decide_eq_false_2. }
  split; [exact Hnull|].
  unfold AuthCallback.getAuthClientPrincipal. rewrite Hnull.
  unfold AuthCallback.authTokenOf. by destruct (negb (String.eqb authProvider "facebook")).
Qed.

(** X21. For Facebook the user is what [jwtDecode] makes of the token: no
    request is sent, and a token that does not decode is a throw. *)
Theorem facebook_user_from_token accessToken :
  getOAuthUser "facebook" accessToken =
  (match AuthCallback.jwtDecode env accessToken with
   | Some payload => Returns payload
   | None => Throws InvalidTokenError
   end, []).
Proof.
  unfold AuthCallback.getOAuthUser. simpl.
  by destruct (AuthCallback.jwtDecode env accessToken).
Qed.

(** X22. The claims of a principal are the standard ones, none of which has
    a type that starts with [urn:github:], followed for GitHub, and for
    GitHub only, by one claim [urn:github:<key>] for each key of the user,
    in the order of the keys, with the value the user has under the key. *)
Theorem github_raw_claims authProvider authConfigs user properties :
  ownProperties user = Some properties ->
  exists principal standard,
    clientPrincipalOf authProvider authConfigs user = (Returns principal, []) /\
    Forall (fun claim => startsWith (typ claim) "urn:github:" = false) standard /\
    claims principal =
    if String.eqb authProvider "github" then
      standard ++
      map (fun key => {| typ := "urn:github:" +:+ key; val := property key properties |})
          properties.*1
    else standard.
Proof.
  intros Hown. unfold AuthCallback.clientPrincipalOf. rewrite Hown. cbv zeta.
  repeat match goal with
         | |- context [if truthiness ?v then _ else _] => destruct (truthiness v)
         end.
  all: eexists _, _; split; [reflexivity|]; split; [|reflexivity].
  all: repeat constructor.
Qed.

(** X23. A token endpoint that never answers leaves [httpTrigger] pending:
    after the request nothing more happens, and no response is written. *)
Theorem silent_token_endpoint_never_answered context request customAuth authContext
    authConfigs context1 events :
  passes context request customAuth authContext authConfigs context1 ->
  getOAuthToken (normalizeAuthProvider (provider context)) (codeValue request) authConfigs
    = (Pending, events) ->
  httpTrigger context request customAuth = (Pending, events).
Proof.
  intros Hpasses Hsilent. rewrite (httpTrigger_passes _ _ _ _ _ _ Hpasses).
  apply await_pending. unfold AuthCallback.getAuthClientPrincipal. by rewrite Hsilent.
Qed.

(** X24. An answer of the token endpoint that holds no truthy token ends the
    login there: [getAuthClientPrincipal] returns [null], the user is not
    fetched, and nothing is written to the console. *)
Theorem no_token_no_user_request authProvider code authConfigs body token events :
  getOAuthToken authProvider code authConfigs = (Returns (Some body), events) ->
  (authTokenOf authProvider (Some body)).1 = Returns token ->
  truthiness token = false ->
  getAuthClientPrincipal authProvider code authConfigs = (Returns None, events).
Proof.
  intros Htoken Hpick Hfalsy. unfold AuthCallback.getAuthClientPrincipal. rewrite Htoken.
  pose proof (authTokenOf_events authProvider (Some body)) as Hpure.
  destruct (authTokenOf authProvider (Some body)) as [picked events'] eqn:Hrun.
  simpl in Hpick, Hpure. subst picked events'.
  cbn [await try_catch ret fst snd]. rewrite Hrun.
  cbn [await try_catch ret fst snd]. rewrite Hfalsy. simpl. by rewrite !app_nil_r.
Qed.

(** X25. The roles source is asked only for a principal and a truthy
    [rolesSource]: without a principal, or with a [rolesSource] that is
    missing or empty, the block sends nothing and hands on what it got. *)
Theorem roles_source_not_asked customAuth clientPrincipal :
  clientPrincipal = None \/ whenTruthy (customAuth ≫= rolesSource) = None ->
  addRoles customAuth clientPrincipal = (Returns clientPrincipal, []).
Proof.
  intros [->|Hnone]; [apply addRoles_none|]. by apply addRoles_no_source.
Qed.

(** X26. With a principal whose serialization, sealed by [encryptAndSign]
    and encoded by [btoa], is not empty, the redirect has two cookie calls,
    in this order: the auth-context cookie is deleted, and the session
    cookie is set with the encoded value, the configured host as domain,
    the path [/], [secure], [httpOnly], and an expiry eight hours from now.
    If [encryptAndSign] hands back nothing, the redirect is the one without
    a principal. *)
Theorem session_cookie_attributes request authContext principal :
  (forall sealed,
     AuthCallback.JSON_stringify env principal <> "" ->
     AuthCallback.encryptAndSign env (AuthCallback.JSON_stringify env principal)
       = Some sealed ->
     sealed <> "" ->
     AuthCallback.btoa env sealed <> "" ->
     redirect request authContext (Some principal) =
     response 302
       [ ("status", HNum 302);
         ("Location", HStr (default "/" (postLoginRedirectUri authContext))) ]
       ""
       (Some {| requestCookies := headers_cookie request;
                calls :=
                  [ AddCookieToDelete "StaticWebAppsAuthContextCookie";
                    AddCookieToSet
                      {| cookie_name := "StaticWebAppsAuthCookie";
                         cookie_value := AuthCallback.btoa env sealed;
                         cookie_domain := AuthCallback.DEFAULT_CONFIG_host env;
                         cookie_path := "/";
                         cookie_secure := true;
                         cookie_httpOnly := true;
                         cookie_expires :=
                           AuthCallback.toUTCString env
                             (AuthCallback.Date_now env + 1000 * 60 * 60 * 8) |} ] |}))
  /\
  (whenTruthy (AuthCallback.encryptAndSign env (AuthCallback.JSON_stringify env principal))
     = None ->
   redirect request authContext (Some principal) = redirect request authContext None).
Proof.
  split.
  - intros sealed Hserialized Hsealed Hfull Hencoded.
    unfold AuthCallback.redirect. cbv zeta. simpl.
    apply String.eqb_neq in Hserialized, Hfull, Hencoded.
    rewrite Hserialized, Hsealed. simpl. rewrite Hfull. simpl. by rewrite Hencoded.
  - intros Hnothing. unfold AuthCallback.redirect. cbv zeta. simpl.
    destruct (String.eqb (AuthCallback.JSON_stringify env principal) "") eqn:Hempty;
      simpl; rewrite ?Hempty; simpl.
    + reflexivity.
    + by rewrite Hnothing.
Qed.

End Facts.

(** *** Sample runs *)

Lemma sample_passes network customAuth :
  passes (Sample.world network) Sample.context Sample.goodRequest (Some customAuth)
    Sample.fresh Sample.settings Sample.context.
Proof.
  repeat split; try (vm_compute; reflexivity).
  - apply (bool_decide_unpack _). vm_compute. exact I.
  - discriminate.
Defined.

Lemma session_cookie_only_after_validation_witness :
  exists events cookie body token user events1 events2,
    httpTrigger Sample.env Sample.context Sample.goodRequest (Some Sample.config)
      = (Returns (set_res (redirect Sample.env Sample.goodRequest Sample.fresh
                             (Some Sample.principal)) Sample.context), events) /\
    cookies (redirect Sample.env Sample.goodRequest Sample.fresh (Some Sample.principal))
      = Some {| requestCookies := headers_cookie Sample.goodRequest;
                calls := [ AddCookieToDelete "StaticWebAppsAuthContextCookie";
                           AddCookieToSet cookie ] |} /\
    cookie_name cookie = "StaticWebAppsAuthCookie" /\
    stateMatches Sample.env Sample.goodRequest = true /\
    nonceExpired Sample.env Sample.goodRequest = false /\
    getOAuthToken Sample.env "google" (Some "c-1") Sample.settings
      = (Returns (Some body), events1) /\
    (authTokenOf Sample.env "google" (Some body)).1 = Returns token /\
    truthiness token = true /\
    getOAuthUser Sample.env "google" token = (Returns user, events2).
Proof.
  assert (Hrun :
            httpTrigger Sample.env Sample.context Sample.goodRequest (Some Sample.config)
            = (Returns (set_res (redirect Sample.env Sample.goodRequest Sample.fresh
                                   (Some Sample.principal)) Sample.context),
               (httpTrigger Sample.env Sample.context Sample.goodRequest
                  (Some Sample.config)).2))
    by (vm_compute; reflexivity).
  assert (Hcookies :
            exists cookie,
              cookies (redirect Sample.env Sample.goodRequest Sample.fresh
                         (Some Sample.principal))
              = Some {| requestCookies := headers_cookie Sample.goodRequest;
                        calls := [ AddCookieToDelete "StaticWebAppsAuthContextCookie";
                                   AddCookieToSet cookie ] |} /\
              cookie_name cookie = "StaticWebAppsAuthCookie").
  { eexists. split; [vm_compute; reflexivity|reflexivity]. }
  destruct Hcookies as (cookie & Hcookies & Hname).
  destruct (session_cookie_only_after_validation Sample.env Sample.context Sample.goodRequest
              (Some Sample.config) _ _ Hrun)
    as [(Hrefused & _)|[(code & message & Herror & _)|Hlogin]].
  - vm_compute in Hrefused. discriminate.
  - vm_compute in Herror. discriminate.
  - destruct Hlogin as (authContext & authConfigs & context1 & clientPrincipal
                        & (_ & _ & _ & Hstate & Hfresh & Hconfig) & Hsame & _ & _ & Honly).
    injection Hconfig as <- <-.
    assert (Hredirect :
              redirect Sample.env Sample.goodRequest Sample.fresh (Some Sample.principal)
              = redirect Sample.env Sample.goodRequest authContext clientPrincipal)
      by (unfold set_res in Hsame; congruence).
    destruct Honly as (body & token & user & events1 & events2 & Htoken & Hpick & Htruthy
                       & Huser).
    { rewrite <- Hredirect. eexists _, cookie. split; [exact Hcookies|].
      split; [|exact Hname]. right. left. }
    by exists (httpTrigger Sample.env Sample.context Sample.goodRequest
                 (Some Sample.config)).2, cookie, body, token, user, events1, events2.
Defined.

(** C1, as first stated, fails on its last clause: for a request without a
    cookie header the cookie does not validate, the answer is an error, and
    it carries no cookies at all, so that the auth-context cookie is not
    deleted. *)
Lemma invalid_cookie_deletes_nothing_counterexample :
  validCookie Sample.env Sample.noCookie = None /\
  exists context' answer,
    httpTrigger Sample.env Sample.context Sample.noCookie (Some Sample.config)
      = (Returns context', []) /\
    res context' = Some answer /\
    status answer = 401 /\
    cookies answer = None /\
    ~ deletesAuthContextCookie answer.
Proof.
  split; [reflexivity|].
  eexists _, _. split; [vm_compute; reflexivity|]. simpl.
  repeat split. by intros (manager & Hcookies & _).
Qed.

Lemma invalid_login_before_any_call_witness :
  httpTrigger Sample.env Sample.context Sample.noCookie (Some Sample.config)
    = (Returns (set_res (response 401 [("Content-Type", HStr "text/plain")]
                           "Invalid login request" None) Sample.context), []) /\
  httpTrigger Sample.env Sample.context Sample.forgedState (Some Sample.config)
    = (Returns (set_res (response 401 [("Content-Type", HStr "text/plain")]
                           "Invalid login request" None) Sample.context), []).
Proof.
  split.
  - apply (proj1 (invalid_login_before_any_call Sample.env Sample.context Sample.noCookie
                    (Some Sample.config))).
    + apply (bool_decide_unpack _). vm_compute. exact I.
    + left. reflexivity.
  - apply (proj1 (invalid_login_before_any_call Sample.env Sample.context Sample.forgedState
                    (Some Sample.config))).
    + apply (bool_decide_unpack _). vm_compute. exact I.
    + right. split; [discriminate|vm_compute; reflexivity].
Defined.

(** C2, as first stated, fails for a provider that is not supported: a
    request without a cookie header is then answered 400, not 401. *)
Lemma invalid_login_unsupported_counterexample :
  validCookie Sample.env Sample.noCookie = None /\
  exists context' answer,
    httpTrigger Sample.env Sample.unknown Sample.noCookie (Some Sample.config)
      = (Returns context', []) /\
    res context' = Some answer /\
    status answer = 400 /\
    body answer = "Provider 'myspace' not found".
Proof.
  split; [reflexivity|].
  eexists _, _. split; [vm_compute; reflexivity|]. by simpl.
Qed.

Lemma unsupported_provider_rejected_witness :
  httpTrigger Sample.env Sample.unknown Sample.goodRequest (Some Sample.config)
    = (Returns (set_res (response 400 [("Content-Type", HStr "text/plain")]
                           "Provider 'myspace' not found" None) Sample.unknown), []).
Proof.
  apply (unsupported_provider_rejected Sample.env Sample.unknown Sample.goodRequest
           (Some Sample.config)).
  apply (bool_decide_unpack _). vm_compute. exact I.
Defined.

Lemma expired_nonce_times_out_witness :
  httpTrigger Sample.env Sample.context Sample.staleRequest (Some Sample.config)
    = (Returns (set_res (response 401 [("Content-Type", HStr "text/plain")]
                           "Login timed out. Please try again." None) Sample.context), []).
Proof.
  apply (expired_nonce_times_out Sample.env Sample.context Sample.staleRequest
           (Some Sample.config)).
  - apply (bool_decide_unpack _). vm_compute. exact I.
  - vm_compute. reflexivity.
  - vm_compute. reflexivity.
Defined.

(** C4, as first stated, fails when the state is not the hash of the stored
    nonce: the nonce has expired, yet the answer is "Invalid login
    request". *)
Lemma expired_nonce_forged_state_counterexample :
  storedNonce Sample.env Sample.staleForged = Some "n-0" /\
  nonceExpired Sample.env Sample.staleForged = true /\
  exists context' answer,
    httpTrigger Sample.env Sample.context Sample.staleForged (Some Sample.config)
      = (Returns context', []) /\
    res context' = Some answer /\
    status answer = 401 /\
    body answer = "Invalid login request".
Proof.
  split; [reflexivity|]. split; [reflexivity|].
  eexists _, _. split; [vm_compute; reflexivity|]. by simpl.
Qed.

Lemma upstream_failure_still_redirects_witness :
  exists message e events,
    getOAuthToken Sample.offline "google" (Some "c-1") Sample.settings = (Throws e, events) /\
    httpTrigger Sample.offline Sample.context Sample.goodRequest (Some Sample.config) =
    (Returns
       (set_res
          (response 302 [("status", HNum 302); ("Location", HStr "/home")] ""
             (Some {| requestCookies := headers_cookie Sample.goodRequest;
                      calls := [AddCookieToDelete "StaticWebAppsAuthContextCookie"] |}))
          Sample.context),
     events ++ [ConsoleError message e]).
Proof.
  assert (Hthrows :
            getOAuthToken Sample.offline
              (normalizeAuthProvider Sample.offline (provider Sample.context))
              (codeValue Sample.offline Sample.goodRequest) Sample.settings
            = (Throws (RequestError "getaddrinfo ENOTFOUND"),
               (getOAuthToken Sample.offline "google" (Some "c-1") Sample.settings).2))
    by (vm_compute; reflexivity).
  destruct (upstream_failure_still_redirects Sample.offline Sample.context Sample.goodRequest
              (Some Sample.config) Sample.fresh Sample.settings Sample.context _ _
              (sample_passes Sample.unplugged Sample.config) (or_introl Hthrows))
    as (message & _ & Hrun).
  exists message, (RequestError "getaddrinfo ENOTFOUND"),
    (getOAuthToken Sample.offline "google" (Some "c-1") Sample.settings).2.
  split; [exact Hthrows|exact Hrun].
Defined.

Lemma normalize_login_name_picture_witness :
  clientPrincipalOf Sample.env "google" Sample.settings Sample.alice
    = (Returns Sample.principal, []).
Proof.
  destruct (normalize_login_name_picture Sample.env "google" Sample.settings) as [Hbuilt _].
  - discriminate.
  - exact Hbuilt.
Defined.

Lemma role_augmentor_best_effort_witness :
  (exists augmented events,
     httpTrigger Sample.env Sample.context Sample.goodRequest (Some Sample.configWithRoles)
       = (Returns (set_res (redirect Sample.env Sample.goodRequest Sample.fresh
                              (Some augmented)) Sample.context), events) /\
     userRoles augmented = [JStr "authenticated"; JStr "anonymous"; JStr "admin"]) /\
  (exists events,
     httpTrigger Sample.env Sample.context Sample.goodRequest (Some Sample.configTextRoles)
       = (Returns (set_res (redirect Sample.env Sample.goodRequest Sample.fresh
                              (Some Sample.principal)) Sample.context), events) /\
     userRoles Sample.principal = [JStr "authenticated"; JStr "anonymous"]).
Proof.
  assert (Hprincipal :
            getAuthClientPrincipal Sample.env
              (normalizeAuthProvider Sample.env (provider Sample.context))
              (codeValue Sample.env Sample.goodRequest) Sample.settings
            = (Returns (Some Sample.principal),
               (getAuthClientPrincipal Sample.env "google" (Some "c-1") Sample.settings).2))
    by (vm_compute; reflexivity).
  split.
  - destruct (role_augmentor_best_effort Sample.env Sample.context Sample.goodRequest
                (Some Sample.configWithRoles) Sample.fresh Sample.settings Sample.context
                Sample.principal "/api/roles" _ (sample_passes Sample.answers Sample.configWithRoles)
                Hprincipal eq_refl) as (_ & _ & Hpushed & _).
    assert (Hanswer :
              getRoles Sample.env Sample.principal "/api/roles"
              = (Returns (JObj [("roles", JArr [JStr "admin"])]),
                 (getRoles Sample.env Sample.principal "/api/roles").2))
      by (vm_compute; reflexivity).
    destruct (Hpushed _ Hanswer) as [_ Hrun].
    eexists _, _. split; [exact Hrun|reflexivity].
  - destruct (role_augmentor_best_effort Sample.env Sample.context Sample.goodRequest
                (Some Sample.configTextRoles) Sample.fresh Sample.settings Sample.context
                Sample.principal "/api/text" _ (sample_passes Sample.answers Sample.configTextRoles)
                Hprincipal eq_refl) as (Hdefault & Hkept & _ & _).
    assert (Hthrows :
              getRoles Sample.env Sample.principal "/api/text"
              = (Throws SyntaxError, (getRoles Sample.env Sample.principal "/api/text").2))
      by (vm_compute; reflexivity).
    destruct (Hkept _ (or_introl (ex_intro _ SyntaxError Hthrows))) as [_ Hrun].
    eexists. split; [exact Hrun|exact Hdefault].
Defined.

Lemma httpTrigger_throws_only_on_url_witness :
  httpTrigger Sample.env Sample.context Sample.unparsable (Some Sample.config)
    = (Throws TypeError, []).
Proof.
  apply (proj2 (httpTrigger_throws_only_on_url Sample.env Sample.context Sample.unparsable
                  (Some Sample.config) TypeError [])).
  split; [apply (bool_decide_unpack _); vm_compute; exact I|].
  split; [discriminate|]. by split; [vm_compute|].
Defined.

Lemma provider_without_token_endpoint_witness :
  getOAuthToken Sample.env "twitter" (Some "c-1") Sample.settings = (Returns None, []) /\
  getAuthClientPrincipal Sample.env "twitter" (Some "c-1") Sample.settings
  = (Returns None, [ConsoleError "Error in getting OAuth token: " TypeError]).
Proof.
  apply (provider_without_token_endpoint Sample.env "twitter" (Some "c-1") Sample.settings).
  apply (bool_decide_unpack _). vm_compute. exact I.
Defined.

Lemma github_raw_claims_witness :
  exists principal standard,
    clientPrincipalOf Sample.env "github" Sample.settings Sample.alice
      = (Returns principal, []) /\
    Forall (fun claim => startsWith (typ claim) "urn:github:" = false) standard /\
    claims principal =
    standard ++
    [ {| typ := "urn:github:login"; val := JStr "alice" |};
      {| typ := "urn:github:name"; val := JStr "Alice A" |};
      {| typ := "urn:github:picture"; val := JStr "p.png" |} ].
Proof.
  exact (github_raw_claims Sample.env "github" Sample.settings Sample.alice _ eq_refl).
Defined.

Lemma silent_token_endpoint_never_answered_witness :
  exists events,
    events <> [] /\
    httpTrigger Sample.silent Sample.context Sample.goodRequest (Some Sample.config)
      = (Pending, events).
Proof.
  exists (getOAuthToken Sample.silent "google" (Some "c-1") Sample.settings).2.
  split; [discriminate|].
  apply (silent_token_endpoint_never_answered Sample.silent Sample.context Sample.goodRequest
           (Some Sample.config) Sample.fresh Sample.settings Sample.context _
           (sample_passes Sample.mute Sample.config)).
  vm_compute. reflexivity.
Defined.

Lemma no_token_no_user_request_witness :
  exists events,
    getAuthClientPrincipal Sample.env "google" (Some "c-0") Sample.settings
      = (Returns None, events) /\
    length events = 1%nat.
Proof.
  exists (getOAuthToken Sample.env "google" (Some "c-0") Sample.settings).2.
  split; [|reflexivity].
  apply (no_token_no_user_request Sample.env "google" (Some "c-0") Sample.settings
           "error=invalid_grant" JUndefined).
  - vm_compute. reflexivity.
  - vm_compute. reflexivity.
  - reflexivity.
Defined.

Lemma roles_source_not_asked_witness :
  addRoles Sample.env (Some Sample.config) (Some Sample.principal)
    = (Returns (Some Sample.principal), []).
Proof.
  apply (roles_source_not_asked Sample.env (Some Sample.config) (Some Sample.principal)).
  right. reflexivity.
Defined.

Lemma session_cookie_attributes_witness :
  cookies (redirect Sample.env Sample.goodRequest Sample.fresh (Some Sample.principal))
  = Some {| requestCookies := Some "StaticWebAppsAuthContextCookie=fresh";
            calls :=
              [ AddCookieToDelete "StaticWebAppsAuthContextCookie";
                AddCookieToSet
                  {| cookie_name := "StaticWebAppsAuthCookie";
                     cookie_value := "base64:sealed:{google:authenticated,anonymous}";
                     cookie_domain := Some "localhost";
                     cookie_path := "/";
                     cookie_secure := true;
                     cookie_httpOnly := true;
                     cookie_expires := "1700028800000" |} ] |}.
Proof.
  rewrite (proj1 (session_cookie_attributes Sample.env Sample.goodRequest Sample.fresh
                    Sample.principal)
             "sealed:{google:authenticated,anonymous}").
  - vm_compute. reflexivity.
  - discriminate.
  - vm_compute. reflexivity.
  - discriminate.
  - discriminate.
Defined.

End AuthCallbackFacts.
